(** * Harvest time-entry analyzer: the analytics pipeline of [App.jsx]

    A shallow embedding of the data pipeline of [web-app/src/App.jsx]:
    row normalisation ([handleFileUpload], [processedData]), the filter
    pipeline ([filteredData]), weekly utilisation ([startOfWeek],
    [formatDate], [weeklyUtilization]), the internal breakdown
    ([internalBreakdown]), the alert and shoutout classification of the
    rendering code, and the [onChange] handlers of the filter controls.

    Conventions of the embedding.
    - A JavaScript number is a [Number]: [NaN], the two infinities, or a
      finite value carried as an exact rational ([Qc]).  Finite arithmetic
      is exact: binary64 rounding and the sign of zero are not modelled.
    - A [Date] object is its time value: [None] for an Invalid Date,
      [Some t] for [t] milliseconds since the epoch, with the calendar
      functions of the language standard ([Day], [YearFromTime],
      [MakeDay], [TimeClip], ...).  The offset of local time from UTC is
      the parameter [tza] (milliseconds; no daylight-saving change).
    - [Date.parse] is interpreted on the date-only form [YYYY-MM-DD]; what
      an engine does with any other text is the parameter [fallback].
    - Arrays live in a store: [filter] allocates, [sort] reorders its
      receiver in place ([filteredData]).
    - A JavaScript [Map] and a plain object used as a dictionary are
      association lists in insertion order, holding the own properties
      only; a raw CSV row is a [gmap string string].
    - [undefined] is [None] wherever a property may be absent. *)

From Stdlib Require Import ZArith QArith Qcanon Qround Qpower Lia Sorted.
From Stdlib Require Import Strings.String Strings.Ascii DecimalString.
From stdpp Require Import gmap strings list sorting.

Local Open Scope string_scope.
Local Open Scope Z_scope.

(** ** JavaScript numbers *)

Module Num.

Inductive Number : Type :=
| NaN
| PInf
| NInf
| Fin (q : Qc).

Definition of_Z (z : Z) : Number := Fin (Q2Qc (inject_Z z)).

Definition zero : Number := of_Z 0.

Definition Qc_ltb (a b : Qc) : bool :=
  match (a ?= b)%Qc with Lt => true | _ => false end.

Definition Qc_eqb (a b : Qc) : bool :=
  match (a ?= b)%Qc with Eq => true | _ => false end.

(** [x + y] *)
Definition add (x y : Number) : Number :=
  match x, y with
  | NaN, _ | _, NaN => NaN
  | PInf, NInf | NInf, PInf => NaN
  | PInf, _ | _, PInf => PInf
  | NInf, _ | _, NInf => NInf
  | Fin a, Fin b => Fin (a + b)%Qc
  end.

(** [x / y]; a finite number over zero is an infinity of the
    numerator's sign, and [0 / 0] is NaN. *)
Definition div (x y : Number) : Number :=
  match x, y with
  | NaN, _ | _, NaN => NaN
  | (PInf | NInf), (PInf | NInf) => NaN
  | PInf, Fin b => if Qc_ltb b (Q2Qc 0) then NInf else PInf
  | NInf, Fin b => if Qc_ltb b (Q2Qc 0) then PInf else NInf
  | Fin a, (PInf | NInf) => zero
  | Fin a, Fin b =>
      if Qc_eqb b (Q2Qc 0) then
        if Qc_eqb a (Q2Qc 0) then NaN
        else if Qc_ltb a (Q2Qc 0) then NInf else PInf
      else Fin (a / b)%Qc
  end.

(** [x < y]: false as soon as one side is NaN. *)
Definition lt (x y : Number) : bool :=
  match x, y with
  | NaN, _ | _, NaN => false
  | _, NInf => false
  | NInf, _ => true
  | PInf, _ => false
  | Fin _, PInf => true
  | Fin a, Fin b => Qc_ltb a b
  end.

(** [x === y] on numbers. *)
Definition eq (x y : Number) : bool :=
  match x, y with
  | PInf, PInf | NInf, NInf => true
  | Fin a, Fin b => Qc_eqb a b
  | _, _ => false
  end.

Definition gt (x y : Number) : bool := lt y x.
Definition le (x y : Number) : bool := lt x y || eq x y.
Definition ge (x y : Number) : bool := lt y x || eq x y.

(** ToBoolean on a number: NaN and zero are falsy. *)
Definition truthy (x : Number) : bool :=
  match x with
  | NaN => false
  | Fin a => negb (Qc_eqb a (Q2Qc 0))
  | _ => true
  end.

(** [x || y] on numbers. *)
Definition or_else (x y : Number) : Number := if truthy x then x else y.

(** [Math.abs] *)
Definition abs (x : Number) : Number :=
  match x with
  | NaN => NaN
  | PInf | NInf => PInf
  | Fin a => if Qc_ltb a (Q2Qc 0) then Fin (- a)%Qc else Fin a
  end.

(** [Math.round]: the integer nearest to [x], ties towards [+∞]. *)
Definition round (x : Number) : Number :=
  match x with
  | Fin a => of_Z (Qfloor (a + Q2Qc (1 # 2))%Qc)
  | _ => x
  end.

End Num.

Import Num(Number(..), Qc_ltb, Qc_eqb).

(** ** The Date object (ECMAScript time values) *)

Module JSDate.

(** A [Date] is its time value; [None] is the Invalid Date (NaN). *)
Definition Date : Type := option Z.

Definition msPerDay : Z := 86400000.

Definition Day (t : Z) : Z := t / msPerDay.
Definition TimeWithinDay (t : Z) : Z := t mod msPerDay.

Definition isLeapYear (y : Z) : bool :=
  if negb (y mod 4 =? 0) then false
  else if negb (y mod 100 =? 0) then true
  else if negb (y mod 400 =? 0) then false
  else true.

Definition DaysInYear (y : Z) : Z := if isLeapYear y then 366 else 365.

Definition DayFromYear (y : Z) : Z :=
  365 * (y - 1970) + (y - 1969) / 4 - (y - 1901) / 100 + (y - 1601) / 400.

(** The largest [y] with [DayFromYear y <= Day t]: an estimate from the
    400-year cycle, corrected by at most one year. *)
Definition YearFromDay (d : Z) : Z :=
  let y0 := 1970 + (400 * d) / 146097 in
  if DayFromYear (y0 + 1) <=? d then y0 + 1
  else if DayFromYear y0 <=? d then y0
  else y0 - 1.

Definition YearFromTime (t : Z) : Z := YearFromDay (Day t).

Definition InLeapYear (t : Z) : Z :=
  if isLeapYear (YearFromTime t) then 1 else 0.

Definition DayWithinYear (t : Z) : Z := Day t - DayFromYear (YearFromTime t).

(** The day within the year on which month [m] (0 = January) starts;
    [leap] is 1 in a leap year and 0 otherwise. *)
Definition monthStart (m leap : Z) : Z :=
  match m with
  | 0 => 0
  | 1 => 31
  | 2 => 59 + leap
  | 3 => 90 + leap
  | 4 => 120 + leap
  | 5 => 151 + leap
  | 6 => 181 + leap
  | 7 => 212 + leap
  | 8 => 243 + leap
  | 9 => 273 + leap
  | 10 => 304 + leap
  | _ => 334 + leap
  end.

Definition MonthFromTime (t : Z) : Z :=
  let d := DayWithinYear t in
  let leap := InLeapYear t in
  if d <? 31 then 0
  else if d <? 59 + leap then 1
  else if d <? 90 + leap then 2
  else if d <? 120 + leap then 3
  else if d <? 151 + leap then 4
  else if d <? 181 + leap then 5
  else if d <? 212 + leap then 6
  else if d <? 243 + leap then 7
  else if d <? 273 + leap then 8
  else if d <? 304 + leap then 9
  else if d <? 334 + leap then 10
  else 11.

Definition DateFromTime (t : Z) : Z :=
  DayWithinYear t - monthStart (MonthFromTime t) (InLeapYear t) + 1.

Definition WeekDay (t : Z) : Z := (Day t + 4) mod 7.

(** [MakeDay year month date]: the day number of the first of the month
    ([month] may overflow into other years), plus [date - 1]. *)
Definition MakeDay (year month date : Z) : Z :=
  let ym := year + month / 12 in
  let mn := month mod 12 in
  DayFromYear ym + monthStart mn (if isLeapYear ym then 1 else 0) + date - 1.

Definition MakeDate (day time : Z) : Z := day * msPerDay + time.

(** [TimeClip]: a time value further than 8.64e15 ms from the epoch is NaN. *)
Definition TimeClip (t : Z) : Date :=
  if Z.abs t <=? 8640000000000000 then Some t else None.

Section LocalTime.

(** Offset of local time from UTC, in milliseconds. *)
Variable tza : Z.

Definition LocalTime (t : Z) : Z := t + tza.
Definition UTC (t : Z) : Z := t - tza.

(** [d.getDay()], [d.getDate()], [d.getMonth()], [d.getFullYear()]:
    NaN ([None]) on an Invalid Date. *)
Definition getDay (d : Date) : option Z := WeekDay ∘ LocalTime <$> d.
Definition getDate (d : Date) : option Z := DateFromTime ∘ LocalTime <$> d.
Definition getMonth (d : Date) : option Z := MonthFromTime ∘ LocalTime <$> d.
Definition getFullYear (d : Date) : option Z := YearFromTime ∘ LocalTime <$> d.

(** [d.setDate(dt)], as the new time value of [d]; [dt] is [None] when
    the argument is NaN. *)
Definition setDate (d : Date) (dt : option Z) : Date :=
  match d, dt with
  | Some t, Some dt =>
      let lt := LocalTime t in
      let newDate :=
        MakeDate (MakeDay (YearFromTime lt) (MonthFromTime lt) dt)
                 (TimeWithinDay lt) in
      TimeClip (UTC newDate)
  | _, _ => None
  end.

(** [startOfWeek]:
<<
    const d = new Date(date);
    const day = d.getDay();
    const diff = d.getDate() - day + (day === 0 ? -6 : 1);
    return new Date(d.setDate(diff));
>> *)
Definition startOfWeek (date : Date) : Date :=
  let d := date in
  let day := getDay d in
  let diff :=
    match getDate d, day with
    | Some dd, Some day => Some (dd - day + (if day =? 0 then -6 else 1))
    | _, _ => None
    end in
  setDate d diff.

End LocalTime.

(** [date1 - date2] on Date objects: the difference of the time values. *)
Definition date_sub (d1 d2 : Date) : Number :=
  match d1, d2 with
  | Some t1, Some t2 => Num.of_Z (t1 - t2)
  | _, _ => NaN
  end.

(** [differenceInDays]:
<<
    const oneDay = 24 * 60 * 60 * 1000;
    return Math.round(Math.abs((date1 - date2) / oneDay));
>> *)
Definition differenceInDays (date1 date2 : Date) : Number :=
  let oneDay := Num.of_Z (24 * 60 * 60 * 1000) in
  Num.round (Num.abs (Num.div (date_sub date1 date2) oneDay)).

End JSDate.

Export JSDate.

(** ** Strings: number formatting, [Date.parse], [parseFloat], [formatDate] *)

Module JSString.

(** The value of a decimal digit character. *)
Definition digit_value (c : ascii) : option Z :=
  let n := Z.of_N (N_of_ascii c) in
  if (48 <=? n) && (n <=? 57) then Some (n - 48) else None.

(** [String(n)] for an integral number; [None] is NaN. *)
Definition String_of_Z (z : Z) : string := NilZero.string_of_int (Z.to_int z).

Definition String_of_int (n : option Z) : string :=
  match n with
  | Some z => String_of_Z z
  | None => "NaN"
  end.

(** [s.padStart(2, '0')] *)
Definition padStart2 (s : string) : string :=
  match s with
  | String c EmptyString => String "0" (String c EmptyString)
  | EmptyString => "00"
  | _ => s
  end.

(** A template-literal hole or an array index holding a value that may be
    [undefined]. *)
Definition String_of_undefinable (o : option string) : string :=
  match o with
  | Some s => s
  | None => "undefined"
  end.

(** *** [Date.parse]

    The date-only form [YYYY-MM-DD] of the ECMAScript date-time string
    format is interpreted here: it denotes UTC midnight of that day, and an
    element outside [01..12] (month) or [01..31] (day) gives NaN.  Any other
    string, and a day past the end of its month, is left to [fallback], the
    implementation-defined rest of the parser. *)
Section DateParse.

Variable fallback : string -> Date.

Definition two_digits (a b : ascii) : option Z :=
  match digit_value a, digit_value b with
  | Some x, Some y => Some (10 * x + y)
  | _, _ => None
  end.

Definition four_digits (a b c d : ascii) : option Z :=
  match two_digits a b, two_digits c d with
  | Some x, Some y => Some (100 * x + y)
  | _, _ => None
  end.

(** Days of month [m] (1 = January) in year [y]. *)
Definition DaysInMonth (y m : Z) : Z :=
  match m with
  | 2 => if isLeapYear y then 29 else 28
  | 4 | 6 | 9 | 11 => 30
  | _ => 31
  end.

Definition Date_parse (s : string) : Date :=
  match s with
  | String y1 (String y2 (String y3 (String y4 (String "-"
      (String m1 (String m2 (String "-"
        (String d1 (String d2 EmptyString))))))))) =>
      match four_digits y1 y2 y3 y4, two_digits m1 m2, two_digits d1 d2 with
      | Some y, Some m, Some d =>
          if (m <? 1) || (12 <? m) || (d <? 1) || (31 <? d) then None
          else if d <=? DaysInMonth y m
               then TimeClip (MakeDate (MakeDay y (m - 1) d) 0)
               else fallback s
      | _, _, _ => fallback s
      end
  | _ => fallback s
  end.

End DateParse.

(** *** [parseFloat]

    Leading white space is skipped (the ASCII white space characters; the
    non-ASCII ones are not modelled), then the longest prefix that is a
    decimal literal is read: an optional sign, then [Infinity] or digits
    with an optional fraction and exponent.  The value of a finite literal
    is its exact decimal value. *)

Definition is_white (c : ascii) : bool :=
  let n := Z.of_N (N_of_ascii c) in
  ((9 <=? n) && (n <=? 13)) || (n =? 32).

Fixpoint trimStart (s : string) : string :=
  match s with
  | String c s' => if is_white c then trimStart s' else s
  | EmptyString => s
  end.

(** The digits at the start of [s], and what follows them. *)
Fixpoint take_digits (s : string) : list Z * string :=
  match s with
  | String c s' =>
      match digit_value c with
      | Some d => let '(ds, rest) := take_digits s' in (d :: ds, rest)
      | None => ([], s)
      end
  | EmptyString => ([], s)
  end.

Definition digits_value (ds : list Z) : Z :=
  fold_left (fun acc d => 10 * acc + d) ds 0.

(** An optional sign: [true] for a minus. *)
Definition take_sign (s : string) : bool * string :=
  match s with
  | String "-" s' => (true, s')
  | String "+" s' => (false, s')
  | _ => (false, s)
  end.

(** The exponent part at the start of [s], 0 when there is none. *)
Definition take_exponent (s : string) : Z :=
  match s with
  | String c s' =>
      if bool_decide (c = "e"%char) || bool_decide (c = "E"%char) then
        let '(neg, s'') := take_sign s' in
        let '(ds, _) := take_digits s'' in
        match ds with
        | [] => 0
        | _ => if neg then - digits_value ds else digits_value ds
        end
      else 0
  | EmptyString => 0
  end.

Definition parseFloat_string (s : string) : Number :=
  let '(neg, s1) := take_sign (trimStart s) in
  if String.prefix "Infinity" s1 then (if neg then NInf else PInf)
  else
    let '(ip, s2) := take_digits s1 in
    let '(fp, s3) :=
      match s2 with
      | String "." s' => take_digits s'
      | _ => ([], s2)
      end in
    match (ip ++ fp)%list with
    | [] => NaN
    | ds =>
        let e := take_exponent s3 - Z.of_nat (length fp) in
        let m := if neg then - digits_value ds else digits_value ds in
        Fin (Q2Qc (inject_Z m * Qpower (inject_Z 10) e))
    end.

(** [parseFloat(v)] for a property that may be [undefined]. *)
Definition parseFloat (v : option string) : Number :=
  parseFloat_string (String_of_undefinable v).

End JSString.

Export JSString.

(** ** Rows and entries *)

(** A row of [results.data] as PapaParse delivers it with [header: true]:
    column name to cell text. *)
Abbreviation RawRow := (gmap string string).

(** ToBoolean on a property that is a string or [undefined]. *)
Definition truthy_string (v : option string) : bool :=
  match v with
  | Some s => negb (String.eqb s "")
  | None => false
  end.

(** [a === b] where [a] may be [undefined] and [b] is a string. *)
Definition strict_eq (a : option string) (b : string) : bool :=
  match a with
  | Some s => String.eqb s b
  | None => false
  end.

(** A processed row: the raw row spread into a new object whose
    ['Full Name'], ['Date'], ['Hours'] and ['Is Internal'] properties are
    overridden by the computed values. *)
Record Entry : Type := mkEntry {
  raw : RawRow;
  Full_Name : string;
  Date_ : Date;
  Hours : Number;
  Is_Internal : bool
}.

(** [row[col]] on a processed row, for a column that is not overridden. *)
Definition col (c : string) (row : Entry) : option string := raw row !! c.

Definition INTERNAL_CLIENTS : list string :=
  ["Onica"; "Rackspace Innovation In Action"].

(** [INTERNAL_CLIENTS.includes(v)] *)
Definition includes (l : list string) (v : option string) : bool :=
  existsb (strict_eq v) l.

(** The [complete] callback of [handleFileUpload]:
    [setCsvData(results.data.filter(row => row['Date']))]. *)
Definition handleFileUpload (data : list RawRow) : list RawRow :=
  List.filter (fun row => truthy_string (row !! "Date")) data.

(** Array references and the store of arrays (see [filteredData]). *)
Abbreviation Ref := nat.
Abbreviation Store := (list (list Entry)).

Section Pipeline.

(** The implementation-defined part of [Date.parse], the local time zone
    offset, and the instant [new Date()] returns while [filteredData] is
    computed. *)
Variable fallback : string -> Date.
Variable tza : Z.
Variable now : Z.

(** [new Date(v)] for a property that is a string or [undefined]
    ([new Date(undefined)] is an Invalid Date). *)
Definition new_Date (v : option string) : Date :=
  match v with
  | Some s => Date_parse fallback s
  | None => None
  end.

Definition processRow (row : RawRow) : Entry :=
  {| raw := row;
     Full_Name := String_of_undefinable (row !! "First Name") ++ " " ++
                  String_of_undefinable (row !! "Last Name");
     Date_ := new_Date (row !! "Date");
     Hours := Num.or_else (parseFloat (row !! "Hours")) Num.zero;
     Is_Internal := includes INTERNAL_CLIENTS (row !! "Client") |}.

Definition processedData (csvData : list RawRow) : list Entry :=
  map processRow csvData.

(** *** Filter criteria *)

Record FilterCriteria : Type := mkCriteria {
  selectedEmployee : string;
  selectedClient : string;
  selectedProject : string;
  selectedTask : string;
  selectedDateRange : string
}.

(** The [ranges] table of [filteredData]; [None] is [undefined]. *)
Definition ranges (k : string) : option Z :=
  if String.eqb k "week" then Some 7
  else if String.eqb k "month" then Some 30
  else if String.eqb k "quarter" then Some 90
  else if String.eqb k "year" then Some 365
  else None.

(** The predicate of the date-range filter:
<<
    const daysDiff = differenceInDays(now, row['Date']);
    return daysDiff <= daysBack && daysDiff >= 0;
>> *)
Definition inDateRange (daysBack : Z) (row : Entry) : bool :=
  let daysDiff := differenceInDays (Some now) (Date_ row) in
  Num.le daysDiff (Num.of_Z daysBack) && Num.ge daysDiff Num.zero.

(** *** [Array.prototype.sort]

    A stable insertion sort driven by the sign of the comparator; a NaN
    from the comparator counts as [+0], as the language prescribes. *)
Section Sort.

Context {A : Type} (comparefn : A -> A -> Number).

Fixpoint sort_insert (x : A) (l : list A) : list A :=
  match l with
  | [] => [x]
  | y :: l' =>
      if Num.gt (comparefn x y) Num.zero then y :: sort_insert x l'
      else x :: l
  end.

Fixpoint sort (l : list A) : list A :=
  match l with
  | [] => []
  | x :: l' => sort_insert x (sort l')
  end.

End Sort.

(** [(a, b) => b['Date'] - a['Date']] *)
Definition byDateDesc (a b : Entry) : Number := date_sub (Date_ b) (Date_ a).

(** *** Arrays in memory

    [filter] allocates a new array, [sort] reorders its receiver in place
    and returns it.  A [Store] maps array references ([Ref]) to contents;
    a computation [St A] threads the store. *)
Definition St (A : Type) : Type := Store -> A * Store.

#[export] Instance St_ret : MRet St := fun A a h => (a, h).
#[export] Instance St_bind : MBind St :=
  fun A B k m h => let '(a, h') := m h in k a h'.

Definition contents (h : Store) (r : Ref) : list Entry := default [] (h !! r).

(** [r.filter(p)]: a new array. *)
Definition array_filter (p : Entry -> bool) (r : Ref) : St Ref :=
  fun h => (List.length h, (h ++ [List.filter p (contents h r)])%list).

(** [r.sort(comparefn)]: the receiver, sorted in place. *)
Definition array_sort (comparefn : Entry -> Entry -> Number) (r : Ref) : St Ref :=
  fun h => (r, <[r := sort comparefn (contents h r)]> h).

(** [if (selected !== 'all') filtered = filtered.filter(p)] *)
Definition filter_unless_all (selected : string) (p : Entry -> bool)
    (filtered : Ref) : St Ref :=
  if negb (String.eqb selected "all") then array_filter p filtered
  else mret filtered.

(** [filteredData], on the reference of the [processedData] array. *)
Definition filteredData (c : FilterCriteria) (processedData : Ref) : St Ref :=
  let filtered := processedData in
  filtered ← filter_unless_all (selectedEmployee c)
      (fun row => String.eqb (Full_Name row) (selectedEmployee c)) filtered;
  filtered ← filter_unless_all (selectedClient c)
      (fun row => strict_eq (col "Client" row) (selectedClient c)) filtered;
  filtered ← filter_unless_all (selectedProject c)
      (fun row => strict_eq (col "Project" row) (selectedProject c)) filtered;
  filtered ← filter_unless_all (selectedTask c)
      (fun row => strict_eq (col "Task" row) (selectedTask c)) filtered;
  filtered ←
    (if negb (String.eqb (selectedDateRange c) "all") then
       match ranges (selectedDateRange c) with
       | Some daysBack =>
           if negb (daysBack =? 0) then array_filter (inDateRange daysBack) filtered
           else mret filtered
       | None => mret filtered
       end
     else mret filtered);
  array_sort byDateDesc filtered.

(** The contents of the array [filteredData] returns, when [processedData]
    is the only array in the store. *)
Definition filteredRows (c : FilterCriteria) (rows : list Entry) : list Entry :=
  let '(r, h) := filteredData c 0%nat [rows] in contents h r.

(** [internalData]: [filteredData.filter(row => row['Is Internal'])]. *)
Definition internalData (filtered : list Entry) : list Entry :=
  List.filter Is_Internal filtered.

Definition externalData (filtered : list Entry) : list Entry :=
  List.filter (fun row => negb (Is_Internal row)) filtered.

(** *** [formatDate] *)

Definition months : list string :=
  ["Jan"; "Feb"; "Mar"; "Apr"; "May"; "Jun";
   "Jul"; "Aug"; "Sep"; "Oct"; "Nov"; "Dec"].

Definition weekdays : list string :=
  ["Sun"; "Mon"; "Tue"; "Wed"; "Thu"; "Fri"; "Sat"].

(** [arr[i]] for an index that may be NaN. *)
Definition index (arr : list string) (i : option Z) : option string :=
  match i with
  | Some z => if z <? 0 then None else arr !! Z.to_nat z
  | None => None
  end.

(** The year of [toDateString]: at least four digits, signed when negative. *)
Definition padYear (y : Z) : string :=
  let digits := String_of_Z (Z.abs y) in
  let zeros := String.concat ""
                 (repeat "0" (4 - String.length digits)) in
  (if y <? 0 then "-" else "") ++ zeros ++ digits.

(** [d.toDateString()] *)
Definition toDateString (d : Date) : string :=
  match d with
  | None => "Invalid Date"
  | Some _ =>
      String_of_undefinable (index weekdays (getDay tza d)) ++ " " ++
      String_of_undefinable (index months (getMonth tza d)) ++ " " ++
      padStart2 (String_of_int (getDate tza d)) ++ " " ++
      from_option padYear "" (getFullYear tza d)
  end.

Definition formatDate (date : Date) (format : string) : string :=
  let d := date in
  if String.eqb format "yyyy-MM-dd" then
    String_of_int (getFullYear tza d) ++ "-" ++
    padStart2 (String_of_int (Z.succ <$> getMonth tza d)) ++ "-" ++
    padStart2 (String_of_int (getDate tza d))
  else if String.eqb format "MMM d, yyyy" then
    String_of_undefinable (index months (getMonth tza d)) ++ " " ++
    String_of_int (getDate tza d) ++ ", " ++
    String_of_int (getFullYear tza d)
  else if String.eqb format "MMM d" then
    String_of_undefinable (index months (getMonth tza d)) ++ " " ++
    String_of_int (getDate tza d)
  else toDateString d.

(** *** Insertion-ordered maps with string keys ([Map], plain objects)

    Only the own properties of an object used as a dictionary are
    modelled. *)
Section StringMap.

Context {V : Type}.

Fixpoint Map_get (k : string) (m : list (string * V)) : option V :=
  match m with
  | [] => None
  | (k', v) :: m' => if String.eqb k k' then Some v else Map_get k m'
  end.

Definition Map_has (k : string) (m : list (string * V)) : bool :=
  bool_decide (is_Some (Map_get k m)).

(** [m.set(k, v)]: the value of an existing key is replaced where it
    stands, a new key goes last. *)
Fixpoint Map_set (k : string) (v : V) (m : list (string * V)) : list (string * V) :=
  match m with
  | [] => [(k, v)]
  | (k', v') :: m' =>
      if String.eqb k k' then (k, v) :: m' else (k', v') :: Map_set k v m'
  end.

End StringMap.

(** [s.add(x)] on a [Set] of strings. *)
Definition Set_add (x : string) (s : list string) : list string :=
  if existsb (String.eqb x) s then s else (s ++ [x])%list.

(** *** [weeklyUtilization] *)

Record Stats : Type := mkStats {
  hours : Number;
  billableHours : Number;
  internalHours : Number;
  externalHours : Number;
  days : list string
}.

Definition newStats : Stats :=
  {| hours := Num.zero; billableHours := Num.zero;
     internalHours := Num.zero; externalHours := Num.zero; days := [] |}.

Definition isBillable (row : Entry) : bool := strict_eq (col "Billable?" row) "Yes".

(** The statements that update [stats] for one row. *)
Definition addRow (row : Entry) (stats : Stats) : Stats :=
  {| hours := Num.add (hours stats) (Hours row);
     billableHours :=
       if isBillable row then Num.add (billableHours stats) (Hours row)
       else billableHours stats;
     internalHours :=
       if Is_Internal row then Num.add (internalHours stats) (Hours row)
       else internalHours stats;
     externalHours :=
       if Is_Internal row then externalHours stats
       else Num.add (externalHours stats) (Hours row);
     days := Set_add (formatDate (Date_ row) "yyyy-MM-dd") (days stats) |}.

Definition weekKeyOf (row : Entry) : string :=
  formatDate (startOfWeek tza (Date_ row)) "yyyy-MM-dd".

Abbreviation WeekMap := (list (string * list (string * Stats))).

(** The body of [filteredData.forEach(row => ...)]. *)
Definition weekStep (weekMap : WeekMap) (row : Entry) : WeekMap :=
  let weekKey := weekKeyOf row in
  let employee := Full_Name row in
  let weekMap :=
    if negb (Map_has weekKey weekMap) then Map_set weekKey [] weekMap
    else weekMap in
  let employeeMap := default [] (Map_get weekKey weekMap) in
  let employeeMap :=
    if negb (Map_has employee employeeMap)
    then Map_set employee newStats employeeMap
    else employeeMap in
  let stats := default newStats (Map_get employee employeeMap) in
  Map_set weekKey (Map_set employee (addRow row stats) employeeMap) weekMap.

(** [([a], [b]) => new Date(b) - new Date(a)] *)
Definition byWeekDesc {V} (a b : string * V) : Number :=
  date_sub (Date_parse fallback (fst b)) (Date_parse fallback (fst a)).

Definition weeklyUtilization (filtered : list Entry) : WeekMap :=
  let weekMap := fold_left weekStep filtered [] in
  sort byWeekDesc weekMap.

(** *** Alerts and shoutouts *)

Inductive AlertKind : Type := Low | High.

(** The [UtilizationAlert] component: [None] when it renders nothing. *)
Definition UtilizationAlert (hours : Number) : option AlertKind :=
  let isLow := Num.lt hours (Num.of_Z 30) in
  let isHigh := Num.gt hours (Num.of_Z 45) in
  if negb isLow && negb isHigh then None
  else Some (if isLow then Low else High).

(** The alerts of the utilisation tab, one slot per week and employee. *)
Definition alerts (wu : WeekMap) : list (list (option (string * string * AlertKind))) :=
  map (fun '(weekStart, employeeMap) =>
    map (fun '(employee, stats) =>
      if Num.lt (hours stats) (Num.of_Z 30) || Num.gt (hours stats) (Num.of_Z 45)
      then pair (weekStart, employee) <$> UtilizationAlert (hours stats)
      else None) employeeMap) wu.

(** The condition under which a [Shoutout] is rendered. *)
Definition qualifies (stats : Stats) : bool :=
  Num.gt (Num.div (billableHours stats) (hours stats)) (Fin (Q2Qc (9 # 10)))
  && Num.ge (hours stats) (Num.of_Z 35).

(** The shoutouts of the overview tab: a slot per employee of each of the
    first three weeks, [None] where nothing is rendered. *)
Definition shoutouts (wu : WeekMap) : list (list (option (string * string * Stats))) :=
  map (fun '(weekStart, employeeMap) =>
    map (fun '(employee, stats) =>
      if qualifies stats then Some (weekStart, employee, stats) else None)
      employeeMap) (take 3 wu).

End Pipeline.

(** ** [internalBreakdown] *)

Module Breakdown.

Record Leaf : Type := mkLeaf {
  hours : Number;
  billableHours : Number;
  entries : list Entry
}.

Definition newLeaf : Leaf :=
  {| hours := Num.zero; billableHours := Num.zero; entries := [] |}.

Abbreviation Tasks := (list (string * Leaf)).
Abbreviation Projects := (list (string * Tasks)).
Abbreviation Tree := (list (string * Projects)).

(** [v || fallback] on a property that is a string or [undefined]. *)
Definition or_string (v : option string) (fallback : string) : string :=
  match v with
  | Some s => if truthy_string v then s else fallback
  | None => fallback
  end.

Definition clientOf (row : Entry) : string := String_of_undefinable (col "Client" row).
Definition projectOf (row : Entry) : string := or_string (col "Project" row) "No Project".
Definition taskOf (row : Entry) : string := or_string (col "Task" row) "No Task".

(** The updates of the leaf for one row. *)
Definition addRow (row : Entry) (leaf : Leaf) : Leaf :=
  {| hours := Num.add (hours leaf) (Hours row);
     billableHours :=
       if isBillable row then Num.add (billableHours leaf) (Hours row)
       else billableHours leaf;
     entries := (entries leaf ++ [row])%list |}.

(** The body of [internalData.forEach(row => ...)]. *)
Definition step (breakdown : Tree) (row : Entry) : Tree :=
  let client := clientOf row in
  let project := projectOf row in
  let task := taskOf row in
  let breakdown :=
    if negb (Map_has client breakdown) then Map_set client [] breakdown
    else breakdown in
  let projects := default [] (Map_get client breakdown) in
  let projects :=
    if negb (Map_has project projects) then Map_set project [] projects
    else projects in
  let tasks := default [] (Map_get project projects) in
  let tasks :=
    if negb (Map_has task tasks) then Map_set task newLeaf tasks
    else tasks in
  let leaf := default newLeaf (Map_get task tasks) in
  Map_set client
    (Map_set project (Map_set task (addRow row leaf) tasks) projects)
    breakdown.






End Breakdown.

(** [internalData.reduce((sum, row) => sum + row['Hours'], 0)], the
    [internalHours] of [stats]; likewise for any array of rows. *)
Definition sumHours (rows : list Entry) : Number :=
  fold_left (fun sum row => Num.add sum (Hours row)) rows Num.zero.

(** ** Filter criteria as state of the component *)

Definition initialCriteria : FilterCriteria :=
  {| selectedEmployee := "all"; selectedClient := "all";
     selectedProject := "all"; selectedTask := "all";
     selectedDateRange := "all" |}.

(** The state setters. *)
Inductive Setter : Type :=
| setSelectedEmployee (v : string)
| setSelectedClient (v : string)
| setSelectedProject (v : string)
| setSelectedTask (v : string)
| setSelectedDateRange (v : string).

Definition apply_setter (c : FilterCriteria) (s : Setter) : FilterCriteria :=
  match s with
  | setSelectedEmployee v =>
      mkCriteria v (selectedClient c) (selectedProject c) (selectedTask c) (selectedDateRange c)
  | setSelectedClient v =>
      mkCriteria (selectedEmployee c) v (selectedProject c) (selectedTask c) (selectedDateRange c)
  | setSelectedProject v =>
      mkCriteria (selectedEmployee c) (selectedClient c) v (selectedTask c) (selectedDateRange c)
  | setSelectedTask v =>
      mkCriteria (selectedEmployee c) (selectedClient c) (selectedProject c) v (selectedDateRange c)
  | setSelectedDateRange v =>
      mkCriteria (selectedEmployee c) (selectedClient c) (selectedProject c) (selectedTask c) v
  end.

(** A change of one of the five [select] elements, with the chosen value. *)
Inductive Change : Type :=
| EmployeeSelect (v : string)
| ClientSelect (v : string)
| ProjectSelect (v : string)
| TaskSelect (v : string)
| DateRangeSelect (v : string).

(** The setters each [onChange] handler calls, in order. *)
Definition onChange (e : Change) : list Setter :=
  match e with
  | EmployeeSelect v => [setSelectedEmployee v]
  | ClientSelect v =>
      [setSelectedClient v; setSelectedProject "all"; setSelectedTask "all"]
  | ProjectSelect v => [setSelectedProject v; setSelectedTask "all"]
  | TaskSelect v => [setSelectedTask v]
  | DateRangeSelect v => [setSelectedDateRange v]
  end.

(** One update: the setters a handler queued are all applied before the
    component renders again. *)
Definition update (c : FilterCriteria) (e : Change) : FilterCriteria :=
  fold_left apply_setter (onChange e) c.

(** The project [select] is rendered only while a client is selected, the
    task [select] only while a project is. *)
Definition rendered (c : FilterCriteria) (e : Change) : bool :=
  match e with
  | ProjectSelect _ => negb (String.eqb (selectedClient c) "all")
  | TaskSelect _ => negb (String.eqb (selectedProject c) "all")
  | _ => true
  end.

(** The criteria reachable from the initial state by changes of rendered
    controls. *)
Inductive reachable : FilterCriteria -> Prop :=
| reachable_init : reachable initialCriteria
| reachable_update c e :
    reachable c -> rendered c e = true -> reachable (update c e).

(** * Properties *)

Local Open Scope list_scope.

(** ** Numbers *)

Lemma Qc_ltb_lt (a b : Qc) : Qc_ltb a b = true <-> (a < b)%Qc.
Proof.
  unfold Qc_ltb. rewrite Qclt_alt. destruct (a ?= b)%Qc; split; congruence.
Qed.

Lemma Qc_eqb_eq (a b : Qc) : Qc_eqb a b = true <-> a = b.
Proof.
  unfold Qc_eqb. rewrite Qceq_alt. destruct (a ?= b)%Qc; split; congruence.
Qed.

Lemma Qc_ltb_irrefl (a : Qc) : Qc_ltb a a = false.
Proof.
  destruct (Qc_ltb a a) eqn:E; [|done].
  apply Qc_ltb_lt in E. by apply Qclt_not_eq in E.
Qed.

Lemma Qc_ltb_trans (a b c : Qc) :
  Qc_ltb a b = true -> Qc_ltb b c = true -> Qc_ltb a c = true.
Proof. rewrite !Qc_ltb_lt. apply Qclt_trans. Qed.

Lemma Qc_leb_le (a b : Qc) : Qc_ltb a b || Qc_eqb a b = true <-> (a <= b)%Qc.
Proof.
  pose proof (Qc_ltb_lt a b) as Hl. pose proof (Qc_eqb_eq a b) as He.
  split.
  - intros [H|H]%orb_true_iff.
    + by apply Qclt_le_weak, Hl.
    + apply He in H as ->. apply Qcle_refl.
  - intros [H|H]%Qcle_lt_or_eq; apply orb_true_iff; [left|right]; tauto.
Qed.

Lemma lt_Fin (a b : Qc) : Num.lt (Fin a) (Fin b) = true <-> (a < b)%Qc.
Proof. apply Qc_ltb_lt. Qed.

Lemma le_Fin (a b : Qc) : Num.le (Fin a) (Fin b) = true <-> (a <= b)%Qc.
Proof. apply Qc_leb_le. Qed.

Lemma ge_Fin (a b : Qc) : Num.ge (Fin a) (Fin b) = true <-> (b <= a)%Qc.
Proof.
  unfold Num.ge; simpl. rewrite <- Qc_leb_le.
  assert (Qc_eqb a b = Qc_eqb b a) as ->; [|done].
  apply eq_true_iff_eq. rewrite !Qc_eqb_eq. split; congruence.
Qed.

(** Addition is commutative and associative, NaN and the infinities
    included, and zero is neutral. *)
Lemma add_comm (x y : Number) : Num.add x y = Num.add y x.
Proof. destruct x, y; simpl; try done. by rewrite Qcplus_comm. Qed.

Lemma add_assoc (x y z : Number) :
  Num.add x (Num.add y z) = Num.add (Num.add x y) z.
Proof. destruct x, y, z; simpl; try done. by rewrite Qcplus_assoc. Qed.

Lemma add_zero_l (x : Number) : Num.add Num.zero x = x.
Proof. destruct x; simpl; try done. f_equal. apply Qcplus_0_l. Qed.

Lemma add_zero_r (x : Number) : Num.add x Num.zero = x.
Proof. by rewrite add_comm, add_zero_l. Qed.

(** ** Alerts (C3) *)

(** The slot of [alerts] for one record. *)
Lemma alerts_slot wu :
  alerts wu =
  map (fun '(weekStart, employeeMap) =>
    map (fun '(employee, stats) =>
      pair (weekStart, employee) <$> UtilizationAlert (hours stats))
      employeeMap) wu.
Proof.
  unfold alerts. apply map_ext. intros [w m]. apply map_ext. intros [e s].
  unfold UtilizationAlert, Num.gt.
  destruct (Num.lt (hours s) _), (Num.lt _ (hours s)); done.
Qed.



(** ** Shoutouts (C4) *)



(** ** The filter cascade (C6) *)

(** Run a sequence of changes from a state. *)
Definition updates (c : FilterCriteria) (es : list Change) : FilterCriteria :=
  fold_left update es c.

(** Along every run from the initial state in which only rendered controls
    change, no project is selected without a client and no task without a
    project. *)
Lemma reachable_cascade (c : FilterCriteria) :
  reachable c ->
  (selectedClient c = "all" -> selectedProject c = "all") /\
  (selectedProject c = "all" -> selectedTask c = "all").
Proof.
  induction 1 as [|c e Hc [IH1 IH2] Hr]; [done|].
  destruct e; cbn in *; try done.
  - apply negb_true_iff, String.eqb_neq in Hr. split; [done|auto].
  - apply negb_true_iff, String.eqb_neq in Hr. split; [auto|done].
Qed.

(** C6. Whatever updates came before, selecting a client sets the project
    and the task to "all" in that same update, and selecting a project sets
    the task to "all" in that same update; after selecting a client, a
    project and a task, resetting the client to "all" leaves client,
    project and task all "all" at once. *)
Theorem filter_cascade :
  (forall (es : list Change) (c : FilterCriteria) (v : string),
     let c' := update (updates c es) (ClientSelect v) in
     selectedClient c' = v /\ selectedProject c' = "all" /\
     selectedTask c' = "all") /\
  (forall (es : list Change) (c : FilterCriteria) (v : string),
     let c' := update (updates c es) (ProjectSelect v) in
     selectedProject c' = v /\ selectedTask c' = "all" /\
     selectedClient c' = selectedClient (updates c es)) /\
  (forall (es : list Change) (c : FilterCriteria) (cl p t : string),
     let c' := updates c (es ++ [ClientSelect cl; ProjectSelect p;
                                 TaskSelect t; ClientSelect "all"]) in
     selectedClient c' = "all" /\ selectedProject c' = "all" /\
     selectedTask c' = "all").
Proof.
  split; [|split].
  - intros es c v. by cbn.
  - intros es c v. by cbn.
  - intros es c cl p t. unfold updates. rewrite fold_left_app. by cbn.
Qed.

(** ** Hours of a normalized row (C8) *)

Example parseFloat_examples :
  parseFloat (Some "7.5") = Fin (Q2Qc (15 # 2)) /\
  parseFloat (Some "  12abc") = Num.of_Z 12 /\
  parseFloat (Some "1e2") = Num.of_Z 100 /\
  parseFloat (Some ".5e1x") = Num.of_Z 5 /\
  parseFloat (Some "5.") = Num.of_Z 5 /\
  parseFloat (Some "1e") = Num.of_Z 1 /\
  parseFloat (Some "-Infinity") = NInf /\
  parseFloat (Some ".") = NaN /\
  parseFloat (Some "") = NaN /\
  parseFloat (Some "abc") = NaN /\
  parseFloat None = NaN.
Proof. repeat split; vm_compute; try reflexivity; f_equal; apply Qc_is_canon; reflexivity. Qed.

Lemma digit_value_range (c : ascii) (d : Z) :
  digit_value c = Some d -> 0 <= d <= 9.
Proof.
  unfold digit_value. case_match eqn:E; [|done].
  intros [= <-]. apply andb_true_iff in E as [?%Z.leb_le ?%Z.leb_le]. lia.
Qed.

Lemma take_digits_range (s : string) :
  Forall (fun d => 0 <= d <= 9) (take_digits s).1.
Proof.
  induction s as [|c s IH]; simpl; [constructor|].
  destruct (digit_value c) eqn:E; [|constructor].
  destruct (take_digits s) as [ds rest]. simpl in *.
  constructor; [by eapply digit_value_range|done].
Qed.

Lemma digits_value_nonneg (ds : list Z) :
  Forall (fun d => 0 <= d <= 9) ds -> 0 <= digits_value ds.
Proof.
  unfold digits_value.
  assert (forall acc, 0 <= acc -> Forall (fun d => 0 <= d <= 9) ds ->
          0 <= fold_left (fun acc d => 10 * acc + d) ds acc) as Hgen.
  { induction ds as [|d ds IH]; intros acc Hacc Hds; simpl; [done|].
    inversion_clear Hds. apply IH; [lia|done]. }
  intros H. by apply Hgen.
Qed.

Lemma Q2Qc_nonneg_not_lt (q : Q) :
  (0 <= q)%Q -> Qc_ltb (Q2Qc q) (Q2Qc (inject_Z 0)) = false.
Proof.
  intros Hq. destruct (Qc_ltb _ _) eqn:E; [|done].
  apply Qc_ltb_lt in E. unfold Qclt in E. simpl in E.
  rewrite Qred_correct in E. exfalso. by apply (Qle_not_lt 0 q).
Qed.

(** A literal without a minus sign never parses to a negative number. *)
Lemma parseFloat_string_nonneg (s : string) :
  (take_sign (trimStart s)).1 = false ->
  Num.lt (parseFloat_string s) Num.zero = false.
Proof.
  unfold parseFloat_string.
  destruct (take_sign (trimStart s)) as [neg s1]. simpl. intros ->.
  destruct (String.prefix "Infinity" s1); [done|].
  pose proof (take_digits_range s1) as Hip.
  destruct (take_digits s1) as [ip s2].
  assert (exists fp s3, (match s2 with
            | String "." t => take_digits t
            | _ => ([], s2) end) = (fp, s3) /\
            Forall (fun d => 0 <= d <= 9) fp) as (fp & s3 & -> & Hfp).
  { destruct s2 as [|c t].
    - by exists [], EmptyString.
    - destruct (decide (c = "."%char)) as [->|Hc].
      + pose proof (take_digits_range t) as Hf.
        destruct (take_digits t) as [fp s3]. by exists fp, s3.
      + exists [], (String c t). split; [|done].
        destruct c as [[] [] [] [] [] [] [] []]; done. }
  simpl in Hip.
  assert (0 <= digits_value (ip ++ fp)) as Hm
    by (apply digits_value_nonneg, Forall_app; done).
  destruct (ip ++ fp)%list eqn:E; [done|]. simpl.
  apply Q2Qc_nonneg_not_lt. apply Qmult_le_0_compat.
  - change 0%Q with (inject_Z 0). by rewrite <- Zle_Qle.
  - apply Qlt_le_weak, Qpower_0_lt. done.
Qed.

(** The hours of the one-row input whose [Hours] column reads [-5]. *)
Definition negativeHoursRow : RawRow :=
  {[ "Date" := "2024-01-15"; "Hours" := "-5" ]}.

(** A [Date.parse] that recognises the date-only form and nothing else. *)
Definition iso_only : string -> Date := fun _ => None.

(** C8, as stated, fails: the row is kept and its hours are negative. *)
Lemma hours_negative_counterexample :
  Hours <$> processedData iso_only (handleFileUpload [negativeHoursRow])
    = [Num.of_Z (-5)] /\
  Num.lt (Num.of_Z (-5)) Num.zero = true.
Proof. split; [|done]. vm_compute. reflexivity. Qed.

(** C8, amended. The hours of a normalized row are the parsed value of the
    raw [Hours] text, with 0 in place of an unparsable text (NaN); they are
    never NaN; they are negative exactly when the parsed value is, and
    never negative when the text carries no minus sign. *)
Theorem hours_normalized (fallback : string -> Date) (row : RawRow) :
  let h := Hours (processRow fallback row) in
  let p := parseFloat (row !! "Hours") in
  h <> NaN /\
  (p <> NaN -> h = p) /\
  (p = NaN -> h = Num.zero) /\
  Num.lt h Num.zero = Num.lt p Num.zero /\
  (forall s, row !! "Hours" = Some s ->
             (take_sign (trimStart s)).1 = false ->
             Num.lt h Num.zero = false).
Proof.
  cbn zeta. unfold processRow; cbn [Hours]. unfold Num.or_else.
  set (p := parseFloat (row !! "Hours")).
  assert (Num.truthy p = false -> Num.lt p Num.zero = false) as Hz.
  { destruct p; simpl; try done. intros E%negb_false_iff%Qc_eqb_eq. subst.
    apply Qc_ltb_irrefl. }
  split; [|split; [|split; [|split]]].
  - destruct (Num.truthy p) eqn:E; [|done]. by destruct p.
  - intros Hp. destruct p as [| | |q]; try done. cbn [Num.truthy].
    destruct (Qc_eqb q (Q2Qc 0)) eqn:E; [|done].
    apply Qc_eqb_eq in E as ->. done.
  - intros ->. done.
  - destruct (Num.truthy p) eqn:E; [done|]. by rewrite Hz.
  - intros s Hs Hsign.
    assert (Num.lt p Num.zero = false) as Hp.
    { subst p. rewrite Hs. by apply parseFloat_string_nonneg. }
    destruct (Num.truthy p); done.
Qed.

(** ** Dates of normalized rows (C1) *)

Lemma truthy_string_spec (v : option string) :
  truthy_string v = true <-> exists s, v = Some s /\ s <> "".
Proof.
  destruct v as [s|]; simpl.
  - rewrite negb_true_iff, String.eqb_neq. split; [eauto|].
    by intros (? & [= <-] & ?).
  - split; [done|]. by intros (? & ? & ?).
Qed.

Lemma handleFileUpload_spec (data : list RawRow) (row : RawRow) :
  row ∈ handleFileUpload data <->
  row ∈ data /\ exists s, row !! "Date" = Some s /\ s <> "".
Proof.
  unfold handleFileUpload. rewrite !list_elem_of_In, filter_In.
  by rewrite truthy_string_spec.
Qed.

(** Three rows: a month 13, a text that is no date, and no date at all. *)
Definition badDateRows : list RawRow :=
  [ {[ "Date" := "2024-13-45"; "Hours" := "8" ]};
    {[ "Date" := "n/a"; "Hours" := "8" ]};
    {[ "Hours" := "8" ]} ].

(** C1, as stated, fails: the two rows whose date text is unparsable are
    kept, and their entries carry an Invalid Date. *)
Lemma unparsable_date_counterexample :
  Date_ <$> processedData iso_only (handleFileUpload badDateRows)
    = [None; None].
Proof. reflexivity. Qed.

(** A date-only text with a month outside 01..12 or a day outside 01..31
    is an Invalid Date whatever the rest of the parser does. *)
Lemma Date_parse_month_13 (fallback : string -> Date) :
  Date_parse fallback "2024-13-45" = None.
Proof. reflexivity. Qed.

(** C1, amended. The normalizer drops exactly the rows whose date field is
    missing or empty, silently; every entry of the output comes from a row
    of the input with a non-empty date text, and its date is what
    [Date.parse] makes of that text (an Invalid Date when it is
    unparsable); every row with a non-empty date text is kept. *)
Theorem dates_normalized (fallback : string -> Date) (data : list RawRow) :
  let out := processedData fallback (handleFileUpload data) in
  (forall e, e ∈ out ->
     raw e ∈ data /\
     exists s, raw e !! "Date" = Some s /\ s <> "" /\
               Date_ e = Date_parse fallback s) /\
  (forall row, row ∈ data ->
     row !! "Date" = None \/ row !! "Date" = Some "" ->
     forall e, e ∈ out -> raw e <> row) /\
  (forall row s, row ∈ data -> row !! "Date" = Some s -> s <> "" ->
     processRow fallback row ∈ out) /\
  length out = length (List.filter (fun row => truthy_string (row !! "Date")) data).
Proof.
  cbn zeta. unfold processedData.
  assert (forall e, e ∈ map (processRow fallback) (handleFileUpload data) ->
     raw e ∈ data /\
     exists s, raw e !! "Date" = Some s /\ s <> "" /\
               Date_ e = Date_parse fallback s) as H1.
  { intros e (row & -> & Hrow)%list_elem_of_fmap.
    apply handleFileUpload_spec in Hrow as (Hin & s & Hs & Hne).
    split; [done|]. exists s. cbn. by rewrite Hs. }
  split; [done|split; [|split]].
  - intros row _ Hmiss e He Heq. apply H1 in He as (_ & s & Hs & Hne & _).
    rewrite Heq in Hs. destruct Hmiss as [Hm|Hm]; congruence.
  - intros row s Hin Hs Hne. apply list_elem_of_fmap. exists row.
    split; [done|]. apply handleFileUpload_spec. eauto.
  - by rewrite length_map.
Qed.

(** ** The calendar *)

(** Case analysis on every integer comparison of the goal. *)
Ltac case_Z_tests :=
  repeat match goal with
         | |- context [?a <=? ?b] => destruct (Z.leb_spec a b)
         | |- context [?a <? ?b] => destruct (Z.ltb_spec a b)
         | |- context [?a =? ?b] => destruct (Z.eqb_spec a b)
         end.

Lemma YearFromDay_spec (d : Z) :
  DayFromYear (YearFromDay d) <= d < DayFromYear (YearFromDay d + 1).
Proof.
  unfold YearFromDay, DayFromYear. case_Z_tests.
  all: Z.div_mod_to_equations; lia.
Qed.

Lemma DayFromYear_mono (y y' : Z) : y <= y' -> DayFromYear y <= DayFromYear y'.
Proof. unfold DayFromYear. intros. Z.div_mod_to_equations; lia. Qed.

(** [YearFromDay d] is the only year whose days include [d]. *)
Lemma YearFromDay_unique (d y : Z) :
  DayFromYear y <= d < DayFromYear (y + 1) -> YearFromDay d = y.
Proof.
  intros Hy. pose proof (YearFromDay_spec d) as Hs.
  destruct (Z.lt_trichotomy (YearFromDay d) y) as [Hlt|[Heq|Hgt]]; [|done|].
  - pose proof (DayFromYear_mono (YearFromDay d + 1) y). lia.
  - pose proof (DayFromYear_mono (y + 1) (YearFromDay d)). lia.
Qed.

Lemma DayFromYear_succ (y : Z) :
  DayFromYear (y + 1) = DayFromYear y + DaysInYear y.
Proof.
  unfold DayFromYear, DaysInYear, isLeapYear. case_Z_tests; simpl.
  all: Z.div_mod_to_equations; lia.
Qed.

Lemma MonthFromTime_range (t : Z) : 0 <= MonthFromTime t <= 11.
Proof.
  unfold MonthFromTime. case_Z_tests; lia.
Qed.

Lemma MakeDay_month (y m d : Z) :
  0 <= m <= 11 ->
  MakeDay y m d = DayFromYear y + monthStart m (if isLeapYear y then 1 else 0) + d - 1.
Proof.
  intros Hm. unfold MakeDay.
  rewrite (Z.div_small m 12), (Z.mod_small m 12), Z.add_0_r by lia. done.
Qed.

(** The day [setDate] computes: the day of [t] moved by the change of the
    day of the month. *)
Lemma MakeDay_from_time (t d : Z) :
  MakeDay (YearFromTime t) (MonthFromTime t) d = Day t - DateFromTime t + d.
Proof.
  rewrite MakeDay_month by apply MonthFromTime_range.
  unfold DateFromTime, DayWithinYear, InLeapYear. lia.
Qed.

Lemma Day_TimeWithinDay (t : Z) : Day t * msPerDay + TimeWithinDay t = t.
Proof.
  unfold Day, TimeWithinDay, msPerDay.
  pose proof (Z.div_mod t 86400000). lia.
Qed.

Lemma Day_shift (t k : Z) : Day (t + k * msPerDay) = Day t + k.
Proof. unfold Day, msPerDay. by rewrite Z.div_add. Qed.


Lemma WeekDay_range (t : Z) : 0 <= WeekDay t <= 6.
Proof. unfold WeekDay. pose proof (Z.mod_pos_bound (Day t + 4) 7). lia. Qed.

(** ** Week start (C2) *)

(** How many days [startOfWeek] goes back from a day of the week. *)
Definition daysBackToMonday (weekday : Z) : Z :=
  if weekday =? 0 then 6 else weekday - 1.

Lemma setDate_shift (tza t k : Z) :
  setDate tza (Some t) (Some (DateFromTime (LocalTime tza t) + k))
  = TimeClip (t + k * msPerDay).
Proof.
  unfold setDate, UTC, MakeDate. rewrite MakeDay_from_time. f_equal.
  pose proof (Day_TimeWithinDay (LocalTime tza t)) as H.
  unfold LocalTime, msPerDay in *.
  generalize dependent (Day (t + tza)).
  generalize (TimeWithinDay (t + tza)), (DateFromTime (t + tza)).
  intros; lia.
Qed.

Lemma startOfWeek_time (tza t : Z) :
  startOfWeek tza (Some t)
  = TimeClip (t - daysBackToMonday (WeekDay (LocalTime tza t)) * msPerDay).
Proof.
  unfold startOfWeek, getDay, getDate, daysBackToMonday. cbn [fmap option_fmap option_map].
  unfold compose.
  set (wd := WeekDay (LocalTime tza t)). set (dd := DateFromTime (LocalTime tza t)).
  replace (dd - wd + (if wd =? 0 then -6 else 1))
    with (dd + - (if wd =? 0 then 6 else wd - 1)) by (destruct (Z.eqb_spec wd 0); lia).
  subst dd. rewrite setDate_shift. f_equal. unfold msPerDay. lia.
Qed.

(** ** Insertion-ordered maps *)

Section StringMapFacts.

Context {V : Type}.
Implicit Types (m : list (string * V)) (k : string) (v : V).

Lemma Map_get_set_eq k v m : Map_get k (Map_set k v m) = Some v.
Proof.
  induction m as [|[k' v'] m IH]; simpl.
  - by rewrite String.eqb_refl.
  - destruct (String.eqb_spec k k') as [->|Hne]; simpl.
    + by rewrite String.eqb_refl.
    + by destruct (String.eqb_spec k k').
Qed.

Lemma Map_get_set_ne k k' v m :
  k <> k' -> Map_get k' (Map_set k v m) = Map_get k' m.
Proof.
  intros Hne. induction m as [|[k'' v''] m IH]; simpl.
  - by destruct (String.eqb_spec k' k) as [->|].
  - destruct (String.eqb_spec k k'') as [->|Hne']; simpl.
    + by destruct (String.eqb_spec k' k'') as [->|].
    + by rewrite IH.
Qed.

Lemma Map_set_set k v v' m : Map_set k v' (Map_set k v m) = Map_set k v' m.
Proof.
  induction m as [|[k'' v''] m IH]; simpl.
  - by rewrite String.eqb_refl.
  - destruct (String.eqb_spec k k'') as [->|Hne']; simpl.
    + by rewrite String.eqb_refl.
    + destruct (String.eqb_spec k k''); [done|]. by rewrite IH.
Qed.

Lemma Map_has_get k m : Map_has k m = true <-> is_Some (Map_get k m).
Proof. unfold Map_has. apply bool_decide_eq_true. Qed.


Lemma Map_get_keys k m : is_Some (Map_get k m) <-> k ∈ m.*1.
Proof.
  induction m as [|[k' v'] m IH]; simpl.
  - split; [by intros [? ?]|by intros ?%elem_of_nil].
  - destruct (String.eqb_spec k k') as [->|Hne].
    + split; [left|eauto].
    + rewrite IH. split; [by right|]. by intros [?|?]%elem_of_cons.
Qed.

(** The keys after a [set]: unchanged for a known key, the new key last
    otherwise. *)
Lemma Map_set_keys k v m :
  (Map_set k v m).*1 = if Map_has k m then m.*1 else (m.*1 ++ [k])%list.
Proof.
  induction m as [|[k' v'] m IH]; [done|]. cbn [Map_set].
  destruct (String.eqb_spec k k') as [->|Hne].
  - assert (Map_has k' ((k', v') :: m) = true) as ->; [|done].
    apply Map_has_get. simpl. rewrite String.eqb_refl. eauto.
  - assert (Map_has k ((k', v') :: m) = Map_has k m) as ->.
    { apply eq_true_iff_eq. rewrite !Map_has_get. simpl.
      by destruct (String.eqb_spec k k'). }
    rewrite !fmap_cons, IH. by destruct (Map_has k m).
Qed.

Lemma Map_set_NoDup k v m : NoDup m.*1 -> NoDup (Map_set k v m).*1.
Proof.
  intros Hnd. rewrite Map_set_keys. destruct (Map_has k m) eqn:E; [done|].
  apply NoDup_app. split; [done|]. split; [|apply NoDup_singleton].
  intros x Hx ->%list_elem_of_singleton.
  apply Map_get_keys, Map_has_get in Hx. congruence.
Qed.

(** The idiom [if (!m.has(k)) m.set(k, d); ... m.get(k) ...] followed by an
    update of the value found: one [set] on the original map. *)
Lemma Map_ensure_update k (d : V) (g : V -> V) m :
  (let m1 := if negb (Map_has k m) then Map_set k d m else m in
   Map_set k (g (default d (Map_get k m1))) m1)
  = Map_set k (g (default d (Map_get k m))) m.
Proof.
  cbn zeta. destruct (Map_has k m) eqn:E; simpl; [done|].
  rewrite Map_get_set_eq, Map_set_set. simpl.
  destruct (Map_get k m) eqn:G; [|done].
  assert (Map_has k m = true) by (apply Map_has_get; eauto). congruence.
Qed.

End StringMapFacts.

(** ** Sorting *)

Section SortFacts.

Context {A : Type} (comparefn : A -> A -> Number).

Lemma sort_insert_perm (x : A) (l : list A) :
  sort_insert comparefn x l ≡ₚ x :: l.
Proof.
  induction l as [|y l IH]; cbn [sort_insert]; [done|].
  destruct (Num.gt (comparefn x y) Num.zero); [|done].
  rewrite IH. apply Permutation_swap.
Qed.

(** [sort] only reorders. *)
Lemma sort_perm (l : list A) : sort comparefn l ≡ₚ l.
Proof.
  induction l as [|x l IH]; simpl; [done|].
  by rewrite sort_insert_perm, IH.
Qed.

Lemma sort_elem_of (x : A) (l : list A) : x ∈ sort comparefn l <-> x ∈ l.
Proof. by rewrite sort_perm. Qed.

(** When, on the elements of the array, the comparator is positive exactly
    on pairs that a key orders ascending, the result is in descending order
    of the key. *)
Section ByKey.

Context (key : A -> Z) (P : A -> Prop).
Hypothesis comparefn_key :
  forall a b, P a -> P b ->
    (Num.gt (comparefn a b) Num.zero = true <-> key a < key b).

Lemma sort_insert_sorted (x : A) (l : list A) :
  P x -> Forall P l ->
  StronglySorted (fun a b => key b <= key a) l ->
  StronglySorted (fun a b => key b <= key a) (sort_insert comparefn x l).
Proof.
  intros Hx Hl. induction 1 as [|y l Hs IH Hy]; cbn [sort_insert].
  - repeat constructor.
  - apply Forall_cons in Hl as [Hpy Hl].
    destruct (Num.gt (comparefn x y) Num.zero) eqn:E.
    + apply comparefn_key in E; [|done..]. constructor; [by apply IH|].
      rewrite sort_insert_perm. constructor; [lia|done].
    + assert (key y <= key x) as Hxy.
      { destruct (Z_lt_le_dec (key x) (key y)) as [Hlt|]; [|done].
        apply comparefn_key in Hlt; [|done..]. congruence. }
      constructor; [by constructor|].
      constructor; [done|]. eapply Forall_impl; [exact Hy|].
      intros z Hz. simpl in Hz. lia.
Qed.

Lemma sort_sorted (l : list A) :
  Forall P l ->
  StronglySorted (fun a b => key b <= key a) (sort comparefn l).
Proof.
  induction l as [|x l IH]; intros Hl; cbn [sort]; [constructor|].
  apply Forall_cons in Hl as [Hx Hl].
  apply sort_insert_sorted; [done| |by apply IH].
  by rewrite sort_perm.
Qed.

End ByKey.

End SortFacts.

(** ** Weekly buckets *)

Lemma Set_add_elem (x y : string) (s : list string) :
  x ∈ Set_add y s <-> x = y \/ x ∈ s.
Proof.
  unfold Set_add. destruct (existsb _ s) eqn:E.
  - split; [by right|]. intros [->|?]; [|done].
    apply existsb_exists in E as (z & Hz & ->%String.eqb_eq).
    by apply list_elem_of_In.
  - rewrite elem_of_app, list_elem_of_singleton. tauto.
Qed.

Section WeeklyFacts.

Variable tza : Z.

Abbreviation dayKey row := (formatDate tza (Date_ row) "yyyy-MM-dd").






End WeeklyFacts.

(** The week start follows the local calendar date of the entry.  The
    date text [2024-01-15], a Monday, denotes UTC midnight; five hours west
    of Greenwich that instant is Sunday the 14th, which is also the date
    [formatDate] shows for the entry, and its week starts on the 8th. *)
Example startOfWeek_west_of_Greenwich :
  let tza := -5 * 3600000 in
  let date := Date_parse iso_only "2024-01-15" in
  formatDate tza date "yyyy-MM-dd" = "2024-01-14" /\
  getDay tza date = Some 0 /\
  formatDate tza (startOfWeek tza date) "yyyy-MM-dd" = "2024-01-08".
Proof. by vm_compute. Qed.


Lemma WeekDay_back (t : Z) :
  WeekDay (t - daysBackToMonday (WeekDay t) * msPerDay) = 1.
Proof.
  pose proof (WeekDay_range t) as Hr. revert Hr.
  unfold WeekDay at 2 3.
  replace (t - daysBackToMonday (WeekDay t) * msPerDay)
    with (t + - daysBackToMonday (WeekDay t) * msPerDay) by lia.
  rewrite Day_shift. unfold daysBackToMonday, WeekDay.
  generalize (Day t). intros d Hr.
  destruct (Z.eqb_spec ((d + 4) mod 7) 0); Z.div_mod_to_equations; lia.
Qed.


(** ** The filter pipeline *)

Section FilterFacts.

Variable now : Z.

(** The number of days of the active date-range preset, if any. *)
Definition presetDays (c : FilterCriteria) : option Z :=
  if negb (String.eqb (selectedDateRange c) "all") then
    match ranges (selectedDateRange c) with
    | Some daysBack => if negb (daysBack =? 0) then Some daysBack else None
    | None => None
    end
  else None.

Definition keep_unless_all (selected : string) (p : Entry -> bool)
    (l : list Entry) : list Entry :=
  if negb (String.eqb selected "all") then List.filter p l else l.

(** The rows that pass every active criterion, in their original order. *)
Definition passing (c : FilterCriteria) (rows : list Entry) : list Entry :=
  let l := keep_unless_all (selectedEmployee c)
             (fun row => String.eqb (Full_Name row) (selectedEmployee c)) rows in
  let l := keep_unless_all (selectedClient c)
             (fun row => strict_eq (col "Client" row) (selectedClient c)) l in
  let l := keep_unless_all (selectedProject c)
             (fun row => strict_eq (col "Project" row) (selectedProject c)) l in
  let l := keep_unless_all (selectedTask c)
             (fun row => strict_eq (col "Task" row) (selectedTask c)) l in
  match presetDays c with
  | Some daysBack => List.filter (inDateRange now daysBack) l
  | None => l
  end.

(** Whether some criterion filters, so that [filter] was called at least
    once. *)
Definition filters (c : FilterCriteria) : bool :=
  negb (String.eqb (selectedEmployee c) "all")
  || negb (String.eqb (selectedClient c) "all")
  || negb (String.eqb (selectedProject c) "all")
  || negb (String.eqb (selectedTask c) "all")
  || bool_decide (is_Some (presetDays c)).

(** The state of the variable [filtered] part way through [filteredData]:
    it refers to an array holding [l]; the store has only grown; and
    [filtered] is either still the [processedData] array in an unchanged
    store ([fresh = false]) or an array allocated since. *)
Definition reaches (h0 : Store) (pd : Ref) (l : list Entry) (fresh : bool)
    (res : Ref * Store) : Prop :=
  contents res.2 res.1 = l /\
  (exists ext, res.2 = (h0 ++ ext)%list) /\
  (res.1 < length res.2)%nat /\
  (if fresh then (length h0 <= res.1)%nat else res.1 = pd /\ res.2 = h0).

Lemma contents_app_last (h : Store) (l : list Entry) :
  contents (h ++ [l]) (length h) = l.
Proof. unfold contents. by rewrite list_lookup_middle. Qed.

Lemma reaches_filter h0 pd l fresh p (r : Ref) (h : Store) :
  reaches h0 pd l fresh (r, h) ->
  exists r' h',
    array_filter p r h = (r', h') /\
    reaches h0 pd (List.filter p l) true (r', h').
Proof.
  unfold reaches, array_filter. cbn [fst snd].
  intros (Hc & [ext ->] & Hr & Hf). rewrite Hc.
  eexists _, _. split; [done|]. cbn [fst snd].
  split; [apply contents_app_last|]. split.
  - exists (ext ++ [List.filter p l]). by rewrite app_assoc.
  - rewrite !length_app. simpl. lia.
Qed.

Lemma reaches_unless h0 pd l fresh selected p (r : Ref) (h : Store) :
  reaches h0 pd l fresh (r, h) ->
  exists r' h',
    filter_unless_all selected p r h = (r', h') /\
    reaches h0 pd (keep_unless_all selected p l)
      (fresh || negb (String.eqb selected "all")) (r', h').
Proof.
  intros H. unfold keep_unless_all, filter_unless_all.
  destruct (negb (String.eqb selected "all")).
  - rewrite orb_true_r. by eapply reaches_filter.
  - rewrite orb_false_r. by exists r, h.
Qed.

Lemma filteredData_reaches (c : FilterCriteria) (pd : Ref) (h0 : Store) :
  (pd < length h0)%nat ->
  exists r h,
    reaches h0 pd (passing c (contents h0 pd)) (filters c) (r, h) /\
    filteredData now c pd h0 = array_sort byDateDesc r h.
Proof.
  intros Hpd.
  assert (reaches h0 pd (contents h0 pd) false (pd, h0)) as H0.
  { unfold reaches. simpl. split; [done|]. split; [|done].
    exists []. by rewrite app_nil_r. }
  unfold filteredData, passing, filters.
  unfold mbind, St_bind.
  destruct (reaches_unless _ _ _ _ (selectedEmployee c)
    (fun row => String.eqb (Full_Name row) (selectedEmployee c)) _ _ H0)
    as (r1 & h1 & -> & H1).
  destruct (reaches_unless _ _ _ _ (selectedClient c)
    (fun row => strict_eq (col "Client" row) (selectedClient c)) _ _ H1)
    as (r2 & h2 & -> & H2).
  destruct (reaches_unless _ _ _ _ (selectedProject c)
    (fun row => strict_eq (col "Project" row) (selectedProject c)) _ _ H2)
    as (r3 & h3 & -> & H3).
  destruct (reaches_unless _ _ _ _ (selectedTask c)
    (fun row => strict_eq (col "Task" row) (selectedTask c)) _ _ H3)
    as (r4 & h4 & -> & H4).
  simpl orb in H4. unfold presetDays.
  destruct (negb (String.eqb (selectedDateRange c) "all")).
  - destruct (ranges (selectedDateRange c)) as [daysBack|].
    + destruct (negb (daysBack =? 0)).
      * destruct (reaches_filter _ _ _ _ (inDateRange now daysBack) _ _ H4)
          as (r5 & h5 & -> & H5).
        exists r5, h5. split; [|done].
        rewrite bool_decide_eq_true_2 by eauto. by rewrite orb_true_r.
      * exists r4, h4. split; [|done].
        rewrite bool_decide_eq_false_2 by (by intros [? ?]).
        by rewrite orb_false_r.
    + exists r4, h4. split; [|done].
      rewrite bool_decide_eq_false_2 by (by intros [? ?]).
      by rewrite orb_false_r.
  - exists r4, h4. split; [|done].
    rewrite bool_decide_eq_false_2 by (by intros [? ?]).
    by rewrite orb_false_r.
Qed.

(** The array [filteredData] returns holds the passing rows, sorted. *)
Lemma filteredRows_eq (c : FilterCriteria) (rows : list Entry) :
  filteredRows now c rows = sort byDateDesc (passing c rows).
Proof.
  unfold filteredRows.
  destruct (filteredData_reaches c 0%nat [rows]) as (r & h & (Hc & _ & Hr & _) & ->);
    [simpl; lia|].
  unfold array_sort. simpl in *. unfold contents in *.
  rewrite list_lookup_insert_eq by done. simpl. by rewrite Hc.
Qed.

End FilterFacts.

(** ** The date-range preset (C5) *)

Lemma Qfloor_half (a : Z) :
  Qfloor (Q2Qc (inject_Z a) / Q2Qc (inject_Z 86400000) + Q2Qc (1 # 2))%Qc
  = (2 * a + 86400000) / (2 * 86400000).
Proof.
  unfold Qcplus, Qcdiv, Qcmult, Qcinv. cbn [this Q2Qc].
  rewrite !Qred_correct.
  unfold Qfloor, Qplus, Qmult, Qinv, inject_Z. cbn [Qnum Qden].
  f_equal. lia.
Qed.

Lemma days_quotient_sign (a : Z) :
  Qc_ltb (Q2Qc (inject_Z a) / Q2Qc (inject_Z 86400000))%Qc (Q2Qc 0) = true
  <-> a < 0.
Proof.
  rewrite Qc_ltb_lt. unfold Qclt, Qcdiv, Qcmult, Qcinv. cbn [this Q2Qc].
  rewrite !Qred_correct.
  unfold Qlt, Qmult, Qinv, inject_Z. cbn [Qnum Qden]. lia.
Qed.

Lemma days_quotient_opp (a : Z) :
  (- (Q2Qc (inject_Z a) / Q2Qc (inject_Z 86400000)))%Qc
  = (Q2Qc (inject_Z (- a)) / Q2Qc (inject_Z 86400000))%Qc.
Proof.
  apply Qc_is_canon.
  unfold Qcopp, Qcdiv, Qcmult, Qcinv. cbn [this Q2Qc].
  rewrite !Qred_correct.
  unfold Qeq, Qopp, Qmult, Qinv, inject_Z. cbn [Qnum Qden]. lia.
Qed.

(** On valid dates [differenceInDays] is the distance in milliseconds
    divided by a day and rounded to the nearest integer, halves up. *)
Lemma differenceInDays_valid (t1 t2 : Z) :
  differenceInDays (Some t1) (Some t2)
  = Num.of_Z ((2 * Z.abs (t1 - t2) + msPerDay) / (2 * msPerDay)).
Proof.
  unfold differenceInDays, date_sub.
  change (24 * 60 * 60 * 1000) with 86400000.
  set (a := t1 - t2). unfold Num.div, Num.of_Z.
  replace (Qc_eqb (Q2Qc (inject_Z 86400000)) (Q2Qc 0)) with false
    by (by vm_compute).
  unfold Num.abs.
  destruct (Qc_ltb _ (Q2Qc 0)) eqn:E.
  - apply days_quotient_sign in E. rewrite days_quotient_opp.
    unfold Num.round, Num.of_Z. rewrite Qfloor_half.
    rewrite (Z.abs_neq a) by lia. done.
  - assert (~ a < 0) as Ha by (rewrite <- days_quotient_sign; congruence).
    unfold Num.round, Num.of_Z. rewrite Qfloor_half.
    rewrite (Z.abs_eq a) by lia. done.
Qed.

Lemma differenceInDays_invalid (d : Date) : differenceInDays d None = NaN.
Proof. by destruct d. Qed.

Lemma Q2Qc_inject_le (a b : Z) :
  (Q2Qc (inject_Z a) <= Q2Qc (inject_Z b))%Qc <-> a <= b.
Proof.
  unfold Qcle. cbn [this Q2Qc]. rewrite !Qred_correct. by rewrite <- Zle_Qle.
Qed.

Lemma le_of_Z (a b : Z) : Num.le (Num.of_Z a) (Num.of_Z b) = true <-> a <= b.
Proof. unfold Num.of_Z. by rewrite le_Fin, Q2Qc_inject_le. Qed.

Lemma ge_of_Z (a b : Z) : Num.ge (Num.of_Z a) (Num.of_Z b) = true <-> b <= a.
Proof. unfold Num.of_Z. by rewrite ge_Fin, Q2Qc_inject_le. Qed.

(** The nearest integer to [x / msPerDay], halves up, for [x >= 0]. *)
Lemma nearest_day_spec (x n : Z) :
  (2 * x + msPerDay) / (2 * msPerDay) = n <->
  (2 * n - 1) * msPerDay <= 2 * x < (2 * n + 1) * msPerDay.
Proof. unfold msPerDay. split; intros H; Z.div_mod_to_equations; lia. Qed.

(** The date-range predicate, arithmetically. *)
Lemma inDateRange_spec (now daysBack : Z) (row : Entry) :
  inDateRange now daysBack row = true <->
  exists t daysDiff,
    Date_ row = Some t /\
    (2 * daysDiff - 1) * msPerDay <= 2 * Z.abs (now - t)
      < (2 * daysDiff + 1) * msPerDay /\
    0 <= daysDiff <= daysBack.
Proof.
  unfold inDateRange. destruct (Date_ row) as [t|].
  - rewrite differenceInDays_valid, andb_true_iff.
    unfold Num.zero. rewrite le_of_Z, ge_of_Z. split.
    + intros [H1 H2]. eexists t, _. split; [done|].
      split; [by apply nearest_day_spec|lia].
    + intros (t' & n & [= <-] & Hn%nearest_day_spec & Hr). rewrite Hn. lia.
  - rewrite differenceInDays_invalid. split; [done|].
    by intros (? & ? & ? & _).
Qed.

(** Replace the date-range preset of a criteria snapshot. *)
Definition withDateRange (c : FilterCriteria) (preset : string) : FilterCriteria :=
  apply_setter c (setSelectedDateRange preset).

Lemma passing_preset (now : Z) (c : FilterCriteria) (preset : string)
    (daysBack : Z) (rows : list Entry) :
  ranges preset = Some daysBack ->
  passing now (withDateRange c preset) rows
  = List.filter (inDateRange now daysBack) (passing now (withDateRange c "all") rows).
Proof.
  intros Hr. unfold passing, presetDays. cbn.
  rewrite Hr.
  assert (String.eqb preset "all" = false) as ->.
  { apply String.eqb_neq. intros ->. done. }
  assert ((daysBack =? 0) = false) as ->; [|done].
  apply Z.eqb_neq. intros ->. revert Hr. unfold ranges.
  repeat case_match; done.
Qed.

(** C5. With a preset other than all-time (7, 30, 90 or 365 days), the
    filter pipeline keeps exactly the entries that pass the other criteria
    and whose [daysDiff], the distance from [now] to the entry's date in
    days rounded to the nearest integer, satisfies
    [0 <= daysDiff <= presetDays]; with [now] fixed and the 7-day preset an
    entry dated exactly 7 days before [now] is kept and one dated exactly 8
    days before is dropped. *)
Theorem date_range_preset (now : Z) :
  (ranges "week" = Some 7 /\ ranges "month" = Some 30 /\
   ranges "quarter" = Some 90 /\ ranges "year" = Some 365 /\
   forall preset presetDays, ranges preset = Some presetDays ->
     preset <> "all" /\ presetDays ∈ [7; 30; 90; 365]) /\
  (forall (preset : string) (presetDays : Z) (c : FilterCriteria)
          (rows : list Entry) (e : Entry),
     ranges preset = Some presetDays ->
     (e ∈ filteredRows now (withDateRange c preset) rows <->
      e ∈ filteredRows now (withDateRange c "all") rows /\
      exists t daysDiff,
        Date_ e = Some t /\
        (2 * daysDiff - 1) * msPerDay <= 2 * Z.abs (now - t)
          < (2 * daysDiff + 1) * msPerDay /\
        0 <= daysDiff <= presetDays)) /\
  (forall (c : FilterCriteria) (rows : list Entry) (e : Entry),
     e ∈ filteredRows now (withDateRange c "all") rows ->
     (Date_ e = Some (now - 7 * msPerDay) ->
      e ∈ filteredRows now (withDateRange c "week") rows) /\
     (Date_ e = Some (now - 8 * msPerDay) ->
      e ∉ filteredRows now (withDateRange c "week") rows)).
Proof.
  assert (forall (preset : string) (presetDays : Z) (c : FilterCriteria)
          (rows : list Entry) (e : Entry),
     ranges preset = Some presetDays ->
     (e ∈ filteredRows now (withDateRange c preset) rows <->
      e ∈ filteredRows now (withDateRange c "all") rows /\
      inDateRange now presetDays e = true)) as Hkeep.
  { intros preset n c rows e Hr.
    rewrite !filteredRows_eq, !sort_elem_of, (passing_preset _ _ _ n) by done.
    rewrite !list_elem_of_In, filter_In. done. }
  split; [|split].
  - repeat (split; [done|]). intros preset n. unfold ranges.
    repeat case_match; intros [= <-]; (split; [by intros ->|]);
      rewrite !elem_of_cons; tauto.
  - intros preset n c rows e Hr. rewrite (Hkeep _ n) by done.
    by rewrite inDateRange_spec.
  - intros c rows e He. split; intros Hd.
    + apply (Hkeep _ 7); [done|]. split; [done|].
      apply inDateRange_spec. exists (now - 7 * msPerDay), 7.
      split; [done|]. unfold msPerDay. lia.
    + intros [_ (t & n & Ht & Hn & Hr)%inDateRange_spec]%(Hkeep _ 7); [|done].
      rewrite Hd in Ht. injection Ht as <-. unfold msPerDay in Hn. lia.
Qed.

(** ** What [filteredData] does to the [processedData] array (C9) *)

(** When no criterion filters, [filtered] is still the [processedData]
    array when it is sorted: the normalized rows are reordered in place. *)
Lemma filteredData_in_place (now : Z) (c : FilterCriteria) (pd : Ref) (h0 : Store) :
  (pd < length h0)%nat ->
  filters c = false ->
  filteredData now c pd h0
  = (pd, <[pd := sort byDateDesc (contents h0 pd)]> h0).
Proof.
  intros Hpd Hf.
  destruct (filteredData_reaches now c pd h0 Hpd) as (r & h & Hr & ->).
  rewrite Hf in Hr. unfold reaches in Hr. cbn [fst snd] in Hr.
  destruct Hr as (Hc & _ & _ & -> & ->). done.
Qed.

(** When some criterion filters, the sorted array is a new one and every
    array of the store before the call, [processedData] included, is left
    as it was. *)
Lemma filteredData_fresh (now : Z) (c : FilterCriteria) (pd : Ref) (h0 : Store) :
  (pd < length h0)%nat ->
  filters c = true ->
  exists r h,
    filteredData now c pd h0 = (r, h) /\
    (length h0 <= r)%nat /\
    forall r0, (r0 < length h0)%nat -> contents h r0 = contents h0 r0.
Proof.
  intros Hpd Hf.
  destruct (filteredData_reaches now c pd h0 Hpd) as (r & h & Hr & ->).
  rewrite Hf in Hr. unfold reaches in Hr. cbn [fst snd] in Hr.
  destruct Hr as (Hc & [ext ->] & Hlt & Hr).
  exists r, (<[r := sort byDateDesc (contents (h0 ++ ext) r)]> (h0 ++ ext)).
  split; [done|]. split; [done|].
  intros r0 Hr0. unfold contents.
  rewrite list_lookup_insert_ne by lia. by rewrite lookup_app_l.
Qed.

(** Two rows in file order, the older first, and no filter selected. *)
Definition ascendingRows : list RawRow :=
  [ {[ "Date" := "2024-01-01"; "Hours" := "8" ]};
    {[ "Date" := "2024-01-02"; "Hours" := "8" ]} ].

(** C9, evaluated on [ascendingRows] with every criterion "all": the array
    returned is the [processedData] array itself, and its rows have changed
    places. *)
Theorem filteredData_reorders_processedData :
  let rows := processedData iso_only (handleFileUpload ascendingRows) in
  let res := filteredData 0 initialCriteria 0%nat [rows] in
  res.1 = 0%nat /\
  Date_ <$> rows = [Some 1704067200000; Some 1704153600000] /\
  Date_ <$> contents res.2 0%nat = [Some 1704153600000; Some 1704067200000].
Proof. by vm_compute. Qed.

(** ** Sums of hours *)

(** [l.reduce((sum, x) => sum + f(x), 0)] *)
Definition sumBy {A} (f : A -> Number) (l : list A) : Number :=
  fold_left (fun sum x => Num.add sum (f x)) l Num.zero.

Section SumFacts.

Context {A : Type} (f : A -> Number).

Lemma fold_add_acc (l : list A) (a : Number) :
  fold_left (fun sum x => Num.add sum (f x)) l a = Num.add a (sumBy f l).
Proof.
  unfold sumBy. revert a. induction l as [|x l IH]; intros a; cbn [fold_left].
  - by rewrite add_zero_r.
  - rewrite IH, (IH (Num.add Num.zero (f x))), add_zero_l. apply eq_sym, add_assoc.
Qed.

Lemma sumBy_nil : sumBy f [] = Num.zero.
Proof. done. Qed.

Lemma sumBy_cons (x : A) (l : list A) :
  sumBy f (x :: l) = Num.add (f x) (sumBy f l).
Proof. unfold sumBy at 1. cbn [fold_left]. by rewrite fold_add_acc, add_zero_l. Qed.

Lemma sumBy_app (l1 l2 : list A) :
  sumBy f (l1 ++ l2) = Num.add (sumBy f l1) (sumBy f l2).
Proof.
  induction l1 as [|x l1 IH]; cbn [app].
  - by rewrite sumBy_nil, add_zero_l.
  - by rewrite !sumBy_cons, IH, add_assoc.
Qed.

End SumFacts.



(** ** Flattening nested maps *)






(** ** The internal breakdown (C7) *)

Section BreakdownFacts.

Import Breakdown.

















End BreakdownFacts.






(** ** Week keys: [new Date(formatDate(d, 'yyyy-MM-dd'))] *)

Lemma DayWithinYear_range (t : Z) :
  0 <= DayWithinYear t < DaysInYear (YearFromTime t).
Proof.
  unfold DayWithinYear, YearFromTime.
  pose proof (YearFromDay_spec (Day t)) as H.
  rewrite DayFromYear_succ in H. lia.
Qed.

Lemma DateFromTime_range (t : Z) :
  1 <= DateFromTime t <= DaysInMonth (YearFromTime t) (MonthFromTime t + 1).
Proof.
  pose proof (DayWithinYear_range t) as H.
  unfold DateFromTime, MonthFromTime, InLeapYear, DaysInYear, DaysInMonth in *.
  destruct (isLeapYear (YearFromTime t)); case_Z_tests; simpl; lia.
Qed.

Lemma DaysInMonth_le_31 (y m : Z) : DaysInMonth y m <= 31.
Proof.
  unfold DaysInMonth. repeat case_match; lia.
Qed.

(** The calendar fields of a time value depend on its day only. *)
Lemma calendar_of_Day (t1 t2 : Z) :
  Day t1 = Day t2 ->
  YearFromTime t1 = YearFromTime t2 /\
  MonthFromTime t1 = MonthFromTime t2 /\
  DateFromTime t1 = DateFromTime t2.
Proof.
  intros H.
  assert (YearFromTime t1 = YearFromTime t2) as Hy
    by (unfold YearFromTime; by rewrite H).
  assert (DayWithinYear t1 = DayWithinYear t2) as Hd
    by (unfold DayWithinYear; by rewrite H, Hy).
  assert (InLeapYear t1 = InLeapYear t2) as Hl
    by (unfold InLeapYear; by rewrite Hy).
  assert (MonthFromTime t1 = MonthFromTime t2) as Hm
    by (unfold MonthFromTime; by rewrite Hd, Hl).
  split; [done|]. split; [done|].
  unfold DateFromTime. by rewrite Hd, Hm, Hl.
Qed.

(** The text of a year from 1000 to 9999 is its four digits, and the
    padded text of a number below 100 its two digits. *)
Definition year_text_ok (y : Z) : bool :=
  match String_of_Z y with
  | String a (String b (String c (String d EmptyString))) =>
      bool_decide (four_digits a b c d = Some y)
  | _ => false
  end.

Definition two_text_ok (n : Z) : bool :=
  match padStart2 (String_of_Z n) with
  | String a (String b EmptyString) => bool_decide (two_digits a b = Some n)
  | _ => false
  end.

Lemma year_text_all :
  forallb year_text_ok
    ((fun n => 1000 + Z.of_nat n) <$> seq 0 (Z.to_nat 9000)) = true.
Proof. by vm_compute. Qed.

Lemma two_text_all :
  forallb two_text_ok (Z.of_nat <$> seq 0 (Z.to_nat 100)) = true.
Proof. by vm_compute. Qed.

Lemma year_text (y : Z) :
  1000 <= y <= 9999 ->
  exists a b c d,
    String_of_Z y = String a (String b (String c (String d EmptyString))) /\
    four_digits a b c d = Some y.
Proof.
  intros Hy. pose proof year_text_all as H.
  rewrite forallb_forall in H. specialize (H y). unfold year_text_ok in H.
  destruct (String_of_Z y) as [|a [|b [|c [|d [|]]]]].
  5: { exists a, b, c, d. split; [done|]. eapply bool_decide_eq_true_1, H.
       apply list_elem_of_In, list_elem_of_fmap. exists (Z.to_nat (y - 1000)).
       split; [lia|]. apply elem_of_seq. lia. }
  all: exfalso; apply diff_false_true, H;
    apply list_elem_of_In, list_elem_of_fmap; exists (Z.to_nat (y - 1000));
    (split; [lia|]); apply elem_of_seq; lia.
Qed.

Lemma two_text (n : Z) :
  0 <= n <= 99 ->
  exists a b,
    padStart2 (String_of_Z n) = String a (String b EmptyString) /\
    two_digits a b = Some n.
Proof.
  intros Hn. pose proof two_text_all as H.
  rewrite forallb_forall in H. specialize (H n). unfold two_text_ok in H.
  destruct (padStart2 (String_of_Z n)) as [|a [|b [|]]].
  3: { exists a, b. split; [done|]. eapply bool_decide_eq_true_1, H.
       apply list_elem_of_In, list_elem_of_fmap. exists (Z.to_nat n).
       split; [lia|]. apply elem_of_seq. lia. }
  all: exfalso; apply diff_false_true, H;
    apply list_elem_of_In, list_elem_of_fmap; exists (Z.to_nat n);
    (split; [lia|]); apply elem_of_seq; lia.
Qed.

Lemma Day_of_year_range (t : Z) :
  1000 <= YearFromTime t <= 9999 -> -354285 <= Day t < 2932897.
Proof.
  intros Hy. unfold YearFromTime in Hy.
  pose proof (YearFromDay_spec (Day t)) as Hs.
  pose proof (DayFromYear_mono 1000 (YearFromDay (Day t))) as H1.
  pose proof (DayFromYear_mono (YearFromDay (Day t) + 1) 10000) as H2.
  change (DayFromYear 1000) with (-354285) in H1.
  change (DayFromYear 10000) with 2932897 in H2. lia.
Qed.

Section WeekKeys.

Variable fallback : string -> Date.
Variable tza : Z.

(** Parsing the key of a day gives back UTC midnight of that day, for the
    years whose text has four digits. *)
Lemma Date_parse_formatDate (t : Z) :
  1000 <= YearFromTime (LocalTime tza t) <= 9999 ->
  Date_parse fallback (formatDate tza (Some t) "yyyy-MM-dd")
  = Some (Day (LocalTime tza t) * msPerDay).
Proof.
  intros Hy. set (lt := LocalTime tza t) in *.
  pose proof (MonthFromTime_range lt) as Hm.
  pose proof (DateFromTime_range lt) as Hd.
  pose proof (DaysInMonth_le_31 (YearFromTime lt) (MonthFromTime lt + 1)) as H31.
  pose proof (Day_of_year_range lt Hy) as HD.
  destruct (year_text _ Hy) as (y1 & y2 & y3 & y4 & Ey & E4).
  destruct (two_text (MonthFromTime lt + 1)) as (m1 & m2 & Em & E2); [lia|].
  destruct (two_text (DateFromTime lt)) as (d1 & d2 & Ed & E2'); [lia|].
  unfold formatDate. rewrite String.eqb_refl.
  unfold getFullYear, getMonth, getDate.
  cbn [fmap option_fmap option_map String_of_int]. unfold compose. fold lt.
  rewrite <- Z.add_1_r, Ey, Em, Ed.
  change (Date_parse fallback
            (String y1 (String y2 (String y3 (String y4 (String "-"
              (String m1 (String m2 (String "-"
                (String d1 (String d2 EmptyString))))))))))
          = Some (Day lt * msPerDay)).
  unfold Date_parse. rewrite E4, E2, E2'.
  assert (((MonthFromTime lt + 1 <? 1) || (12 <? MonthFromTime lt + 1)
           || (DateFromTime lt <? 1) || (31 <? DateFromTime lt)) = false) as ->.
  { repeat (apply orb_false_intro); apply Z.ltb_ge; lia. }
  assert ((DateFromTime lt <=? DaysInMonth (YearFromTime lt) (MonthFromTime lt + 1))
          = true) as -> by (apply Z.leb_le; lia).
  replace (MonthFromTime lt + 1 - 1) with (MonthFromTime lt) by lia.
  rewrite MakeDay_from_time. unfold MakeDate, TimeClip.
  replace (Day lt - DateFromTime lt + DateFromTime lt) with (Day lt) by lia.
  rewrite Z.add_0_r.
  assert ((Z.abs (Day lt * msPerDay) <=? 8640000000000000) = true) as ->; [|done].
  apply Z.leb_le. unfold msPerDay. lia.
Qed.


(** An entry whose week start is a valid date in a year of four digits. *)
Definition validWeek (e : Entry) : Prop :=
  exists ws, startOfWeek tza (Date_ e) = Some ws /\
             1000 <= YearFromTime (LocalTime tza ws) <= 9999.








Lemma lt_of_Z (a b : Z) : Num.lt (Num.of_Z a) (Num.of_Z b) = true <-> a < b.
Proof.
  unfold Num.of_Z. rewrite lt_Fin. unfold Qclt. cbn [this Q2Qc].
  rewrite !Qred_correct. by rewrite <- Zlt_Qlt.
Qed.


Lemma StronglySorted_lookup {A} (R : A -> A -> Prop) (l : list A)
    (i j : nat) (x y : A) :
  StronglySorted R l -> (i < j)%nat ->
  l !! i = Some x -> l !! j = Some y -> R x y.
Proof.
  intros Hs Hij Hi Hj. rewrite <- (take_drop j l) in Hs.
  eapply StronglySorted_app_1_elem_of; [exact Hs| |].
  - apply list_elem_of_lookup. exists i. by rewrite lookup_take_lt.
  - apply list_elem_of_lookup. exists 0%nat. rewrite lookup_drop.
    by rewrite Nat.add_0_r.
Qed.


End WeekKeys.

(** ** Shoutouts and the three newest weeks (C10) *)



(** Four weeks of one employee, 40 billable hours in each. *)
Definition fourWeeks : list RawRow :=
  (fun d : string =>
     {[ "Date" := d; "Hours" := "40"; "Billable?" := "Yes";
        "Client" := "ClientX"; "First Name" := "Ann"; "Last Name" := "Lee" ]})
  <$> ["2024-01-02"; "2024-01-09"; "2024-01-16"; "2024-01-23"].

(** On [fourWeeks] every week qualifies, and the oldest has no shoutout. *)
Example shoutouts_fourWeeks :
  let wu := weeklyUtilization iso_only 0
              (filteredRows 0 initialCriteria
                 (processedData iso_only (handleFileUpload fourWeeks))) in
  wu.*1 = ["2024-01-22"; "2024-01-15"; "2024-01-08"; "2024-01-01"] /\
  forallb (fun kv => forallb (fun es => qualifies es.2) kv.2) wu = true /\
  map (map (fmap (fun x : string * string * Stats => x.1))) (shoutouts wu)
  = [[Some ("2024-01-22", "Ann Lee")]; [Some ("2024-01-15", "Ann Lee")];
     [Some ("2024-01-08", "Ann Lee")]].
Proof.
  cbn zeta. split; [by vm_compute|]. split; by vm_compute.
Qed.


(** The rows of [fourWeeks] have valid weeks, so the order above applies
    to them. *)
Lemma fourWeeks_validWeek :
  Forall (validWeek 0) (processedData iso_only (handleFileUpload fourWeeks)).
Proof.
  repeat constructor; eexists; (split; [by vm_compute|by vm_compute]).
Qed.

(** ** A worked example

    Three entries of one employee in one week: 10 and 25 billable hours
    for an external client on Monday and Tuesday, 5 non-billable hours for
    an internal client on Wednesday, no filter selected. *)
Definition scenarioRows : list RawRow :=
  [ {[ "Date" := "2024-01-15"; "Client" := "ClientX"; "Hours" := "10";
       "Billable?" := "Yes"; "First Name" := "Employee"; "Last Name" := "A" ]};
    {[ "Date" := "2024-01-16"; "Client" := "ClientX"; "Hours" := "25";
       "Billable?" := "Yes"; "First Name" := "Employee"; "Last Name" := "A" ]};
    {[ "Date" := "2024-01-17"; "Client" := "Onica"; "Hours" := "5";
       "Billable?" := "No"; "First Name" := "Employee"; "Last Name" := "A" ]} ].

(** 40 hours in all, 5 internal and 35 external; one weekly record with 40
    hours of which 35 billable, which is neither a shoutout (35 / 40 is not
    above 0.9) nor an alert. *)
Example scenario_three_entries :
  let filtered := filteredRows 0 initialCriteria
                    (processedData iso_only (handleFileUpload scenarioRows)) in
  Num.eq (sumHours filtered) (Num.of_Z 40) = true /\
  Num.eq (sumHours (internalData filtered)) (Num.of_Z 5) = true /\
  Num.eq (sumHours (externalData filtered)) (Num.of_Z 35) = true /\
  map (fun '(week, employeeMap) =>
         (week, map (fun '(employee, stats) =>
                       (employee,
                        Num.eq (hours stats) (Num.of_Z 40),
                        Num.eq (billableHours stats) (Num.of_Z 35),
                        qualifies stats, UtilizationAlert (hours stats)))
                    employeeMap))
      (weeklyUtilization iso_only 0 filtered)
  = [("2024-01-15", [("Employee A", true, true, false, None)])].
Proof. by vm_compute. Qed.

(** ** Further properties *)

(** The rows [filteredData] returns are in descending order of date when
    every date is valid. *)
Lemma filteredRows_sorted (now : Z) (c : FilterCriteria) (rows : list Entry) :
  Forall (fun e => is_Some (Date_ e)) rows ->
  StronglySorted (fun a b => default 0 (Date_ b) <= default 0 (Date_ a))
    (filteredRows now c rows).
Proof.
  intros Hvalid. rewrite filteredRows_eq.
  apply (sort_sorted byDateDesc (fun e => default 0 (Date_ e))
           (fun e => is_Some (Date_ e))).
  - intros a b [ta Ha] [tb Hb]. unfold byDateDesc, Num.gt, Num.zero.
    rewrite Ha, Hb. cbn [date_sub default from_option id].
    rewrite lt_of_Z. lia.
  - assert (forall sel p l, Forall (fun e => is_Some (Date_ e)) l ->
              Forall (fun e => is_Some (Date_ e)) (keep_unless_all sel p l)) as Hk.
    { intros sel p l Hl. unfold keep_unless_all.
      destruct (negb _); [|done]. apply Forall_forall.
      intros e [He _]%list_elem_of_In%filter_In.
      rewrite Forall_forall in Hl. by apply Hl, list_elem_of_In. }
    unfold passing. cbn zeta. destruct (presetDays c).
    + apply Forall_forall. intros e [He _]%list_elem_of_In%filter_In.
      revert e He. intros e He%list_elem_of_In. revert e He.
      apply Forall_forall. by repeat apply Hk.
    + by repeat apply Hk.
Qed.

Lemma filteredRows_sorted_witness :
  Forall (fun e => is_Some (Date_ e))
    (processedData iso_only (handleFileUpload ascendingRows)) /\
  StronglySorted (fun a b => default 0 (Date_ b) <= default 0 (Date_ a))
    (filteredRows 0 initialCriteria
       (processedData iso_only (handleFileUpload ascendingRows))).
Proof.
  assert (Forall (fun e => is_Some (Date_ e))
            (processedData iso_only (handleFileUpload ascendingRows))) as H.
  { repeat constructor; eexists; reflexivity. }
  split; [exact H|]. apply filteredRows_sorted. exact H.
Defined.

Lemma reachable_cascade_witness :
  reachable (update initialCriteria (ClientSelect "Onica")) /\
  (selectedClient (update initialCriteria (ClientSelect "Onica")) = "all" ->
   selectedProject (update initialCriteria (ClientSelect "Onica")) = "all") /\
  (selectedProject (update initialCriteria (ClientSelect "Onica")) = "all" ->
   selectedTask (update initialCriteria (ClientSelect "Onica")) = "all").
Proof.
  assert (reachable (update initialCriteria (ClientSelect "Onica"))) as H.
  { apply reachable_update; [apply reachable_init|reflexivity]. }
  split; [exact H|]. apply reachable_cascade. exact H.
Defined.

Lemma filteredData_fresh_witness :
  let c := update initialCriteria (EmployeeSelect "Ann Lee") in
  let h0 := [processedData iso_only (handleFileUpload ascendingRows)] in
  (0 < length h0)%nat /\ filters c = true /\
  exists r h,
    filteredData 0 c 0%nat h0 = (r, h) /\
    (length h0 <= r)%nat /\
    forall r0, (r0 < length h0)%nat -> contents h r0 = contents h0 r0.
Proof.
  cbn zeta. split; [apply Nat.lt_0_1|]. split; [reflexivity|].
  apply filteredData_fresh; [apply Nat.lt_0_1|reflexivity].
Defined.

(** * The other computations of the component *)

(** ** [Array.prototype.sort], continued *)

(** When the comparator agrees with a transitive relation [R] on the
    elements of the array (positive only if the second argument is
    [R]-before the first, non-positive only if the first is [R]-before the
    second), the result is sorted by [R]. *)
Section SortRel.

Context {A : Type} (comparefn : A -> A -> Number).
Context (R : A -> A -> Prop) (P : A -> Prop).
Hypothesis R_trans : forall x y z, R x y -> R y z -> R x z.
Hypothesis comparefn_after :
  forall x y, P x -> P y -> Num.gt (comparefn x y) Num.zero = true -> R y x.
Hypothesis comparefn_before :
  forall x y, P x -> P y -> Num.gt (comparefn x y) Num.zero = false -> R x y.

Lemma sort_insert_sorted_rel (x : A) (l : list A) :
  P x -> Forall P l ->
  StronglySorted R l -> StronglySorted R (sort_insert comparefn x l).
Proof.
  intros Hx Hl. induction 1 as [|y l Hs IH Hy]; cbn [sort_insert].
  - repeat constructor.
  - apply Forall_cons in Hl as [Hpy Hl].
    destruct (Num.gt (comparefn x y) Num.zero) eqn:E.
    + constructor; [by apply IH|].
      rewrite sort_insert_perm. constructor; [by apply comparefn_after|done].
    + assert (R x y) as Hxy by (by apply comparefn_before).
      constructor; [by constructor|].
      constructor; [done|]. eapply Forall_impl; [exact Hy|].
      intros z Hz. by eapply R_trans.
Qed.

Lemma sort_sorted_rel (l : list A) :
  Forall P l -> StronglySorted R (sort comparefn l).
Proof.
  induction l as [|x l IH]; intros Hl; cbn [sort]; [constructor|].
  apply Forall_cons in Hl as [Hx Hl].
  apply sort_insert_sorted_rel; [done| |by apply IH].
  by rewrite sort_perm.
Qed.

End SortRel.

(** The comparison [sort] makes when it is called without a comparator:
    the two strings are compared character code by character code. *)
Definition defaultCompare (x y : string) : Number :=
  if String.ltb x y then Num.of_Z (-1)
  else if String.ltb y x then Num.of_Z 1
  else Num.zero.

Lemma String_compare_refl (s : string) : String.compare s s = Eq.
Proof.
  induction s as [|c s IH]; [done|]. cbn.
  unfold Ascii.compare. by rewrite N.compare_refl.
Qed.

Lemma String_compare_trans (c : comparison) (s1 s2 s3 : string) :
  String.compare s1 s2 = c -> String.compare s2 s3 = c ->
  String.compare s1 s3 = c.
Proof.
  revert s2 s3. induction s1 as [|a1 s1 IH]; intros [|a2 s2] [|a3 s3]; cbn;
    try congruence.
  unfold Ascii.compare.
  destruct (N.compare_spec (N_of_ascii a1) (N_of_ascii a2)) as [E12|L12|G12];
    destruct (N.compare_spec (N_of_ascii a2) (N_of_ascii a3)) as [E23|L23|G23];
    destruct (N.compare_spec (N_of_ascii a1) (N_of_ascii a3)) as [E13|L13|G13];
    try congruence; try lia; eauto.
Qed.

Lemma String_leb_trans (s1 s2 s3 : string) :
  String.leb s1 s2 = true -> String.leb s2 s3 = true -> String.leb s1 s3 = true.
Proof.
  unfold String.leb.
  destruct (String.compare s1 s2) eqn:E12; [| |done];
    destruct (String.compare s2 s3) eqn:E23; try done; intros _ _.
  - by rewrite (String_compare_trans Eq s1 s2 s3).
  - apply String.compare_eq_iff in E12 as ->. by rewrite E23.
  - apply String.compare_eq_iff in E23 as <-. by rewrite E12.
  - by rewrite (String_compare_trans Lt s1 s2 s3).
Qed.

Lemma String_ltb_leb (s1 s2 : string) :
  String.ltb s1 s2 = true -> String.leb s1 s2 = true.
Proof. unfold String.ltb, String.leb. by destruct (String.compare s1 s2). Qed.

Lemma String_nltb_leb (s1 s2 : string) :
  String.ltb s2 s1 = false -> String.leb s1 s2 = true.
Proof.
  unfold String.ltb, String.leb. rewrite (String.compare_antisym s1 s2).
  by destruct (String.compare s2 s1).
Qed.

(** A default [sort] puts strings in ascending order. *)
Lemma sort_default_sorted (l : list string) :
  StronglySorted (fun x y => String.leb x y = true) (sort defaultCompare l).
Proof.
  apply (sort_sorted_rel defaultCompare _ (fun _ => True)).
  - apply String_leb_trans.
  - intros x y _ _. unfold defaultCompare.
    destruct (String.ltb x y) eqn:Exy; [by vm_compute|].
    destruct (String.ltb y x) eqn:Eyx; [|by vm_compute].
    intros _. by apply String_ltb_leb.
  - intros x y _ _. unfold defaultCompare.
    destruct (String.ltb x y) eqn:Exy; [intros _; by apply String_ltb_leb|].
    destruct (String.ltb y x) eqn:Eyx; [by vm_compute|].
    intros _. by apply String_nltb_leb.
  - by apply Forall_true.
Qed.

(** ** The option lists of the filter controls *)

(** [[...new Set(l)]]: the distinct elements of [l], each where it first
    occurs. *)
Definition Set_of {A} `{EqDecision A} (l : list A) : list A :=
  fold_left (fun s x => if bool_decide (x ∈ s) then s else s ++ [x]) l [].

(** [l.filter(Boolean)] on elements that are strings or [undefined]. *)
Definition filter_Boolean (l : list (option string)) : list string :=
  omap (fun v => if truthy_string v then v else None) l.

(** [employees] *)
Definition employees (processedData : list Entry) : list string :=
  let unique := Set_of (map Full_Name processedData) in
  sort defaultCompare unique.

(** [clients] *)
Definition clients (processedData : list Entry) : list string :=
  let unique := Set_of (map (col "Client") processedData) in
  sort defaultCompare (filter_Boolean unique).

(** [projects] *)
Definition projects (selectedClient : string) (processedData : list Entry) :
    list string :=
  if String.eqb selectedClient "all" then []
  else
    let filtered :=
      List.filter (fun row => strict_eq (col "Client" row) selectedClient)
                  processedData in
    let unique := Set_of (map (col "Project") filtered) in
    sort defaultCompare (filter_Boolean unique).

(** [tasks] *)
Definition tasks (selectedProject : string) (processedData : list Entry) :
    list string :=
  if String.eqb selectedProject "all" then []
  else
    let filtered :=
      List.filter (fun row => strict_eq (col "Project" row) selectedProject)
                  processedData in
    let unique := Set_of (map (col "Task") filtered) in
    sort defaultCompare (filter_Boolean unique).

(** The two option groups of the client control:
    [clients.filter(c => INTERNAL_CLIENTS.includes(c))] and its complement. *)
Definition internalClientOptions (processedData : list Entry) : list string :=
  List.filter (fun c => includes INTERNAL_CLIENTS (Some c)) (clients processedData).

Definition externalClientOptions (processedData : list Entry) : list string :=
  List.filter (fun c => negb (includes INTERNAL_CLIENTS (Some c)))
              (clients processedData).

Lemma Set_of_spec {A} `{EqDecision A} (l : list A) :
  NoDup (Set_of l) /\ forall x, x ∈ Set_of l <-> x ∈ l.
Proof.
  unfold Set_of.
  assert (forall s, NoDup s ->
    NoDup (fold_left (fun s x => if bool_decide (x ∈ s) then s else s ++ [x]) l s) /\
    forall x, x ∈ fold_left (fun s x => if bool_decide (x ∈ s) then s else s ++ [x]) l s
              <-> x ∈ s \/ x ∈ l) as Hgen.
  { induction l as [|y l IH]; intros s Hs; cbn [fold_left].
    - split; [done|]. intros x. rewrite elem_of_nil. tauto.
    - destruct (bool_decide (y ∈ s)) eqn:E.
      + apply bool_decide_eq_true in E. destruct (IH s Hs) as [H1 H2].
        split; [done|]. intros x. rewrite H2, elem_of_cons.
        split; [tauto|]. intros [?|[->|?]]; tauto.
      + apply bool_decide_eq_false in E.
        assert (NoDup (s ++ [y])) as Hs'.
        { apply NoDup_app. split; [done|]. split; [|apply NoDup_singleton].
          by intros x Hx ->%list_elem_of_singleton. }
        destruct (IH _ Hs') as [H1 H2]. split; [done|].
        intros x. rewrite H2, elem_of_app, list_elem_of_singleton, elem_of_cons.
        tauto. }
  destruct (Hgen [] (NoDup_nil_2)) as [H1 H2]. split; [done|].
  intros x. rewrite H2, elem_of_nil. tauto.
Qed.

Lemma filter_Boolean_spec (l : list (option string)) :
  (NoDup l -> NoDup (filter_Boolean l)) /\
  forall s, s ∈ filter_Boolean l <-> Some s ∈ l /\ s <> "".
Proof.
  assert (forall s, s ∈ filter_Boolean l <-> Some s ∈ l /\ s <> "") as Hin.
  { intros s. unfold filter_Boolean. rewrite list_elem_of_omap. split.
    - intros (v & Hv & Hs). destruct (truthy_string v) eqn:E; [|done]. subst v.
      split; [done|]. by apply negb_true_iff, String.eqb_neq in E.
    - intros [Hs Hne]. exists (Some s). split; [done|].
      cbn. by apply String.eqb_neq in Hne as ->. }
  split; [|done]. clear Hin.
  induction l as [|v l IH]; intros Hnd; [constructor|].
  apply NoDup_cons in Hnd as [Hv Hnd]. unfold filter_Boolean. cbn [omap list_omap].
  destruct (truthy_string v) eqn:E; [|by apply IH].
  destruct v as [s|]; [|done]. constructor; [|by apply IH].
  intros (v & Hv' & Hs)%list_elem_of_omap.
  destruct (truthy_string v); [|done]. by subst v.
Qed.

(** A list of option values built as the code builds [clients], [projects]
    and [tasks]: distinct, ascending, and holding exactly the non-empty
    values of the column. *)
Lemma optionList_spec (column : string) (rows : list Entry) :
  let l := sort defaultCompare (filter_Boolean (Set_of (map (col column) rows))) in
  NoDup l /\
  StronglySorted (fun x y => String.leb x y = true) l /\
  forall s, s ∈ l <-> s <> "" /\ exists row, row ∈ rows /\ col column row = Some s.
Proof.
  cbn zeta. destruct (Set_of_spec (map (col column) rows)) as [Hnd Hin].
  destruct (filter_Boolean_spec (Set_of (map (col column) rows))) as [Hnd' Hin'].
  split; [|split].
  - rewrite sort_perm. by apply Hnd'.
  - apply sort_default_sorted.
  - intros s. rewrite sort_elem_of, Hin', Hin, list_elem_of_In, in_map_iff.
    split.
    + intros [(row & Hrow & Hr) Hne]. split; [done|]. exists row.
      by rewrite list_elem_of_In.
    + intros [Hne (row & Hr & Hrow)]. split; [|done]. exists row.
      by rewrite <- list_elem_of_In.
Qed.

(** The employee options are the distinct full names of the rows, in
    ascending order. *)
Theorem employees_spec (processedData : list Entry) :
  NoDup (employees processedData) /\
  StronglySorted (fun x y => String.leb x y = true) (employees processedData) /\
  forall name, name ∈ employees processedData <->
               exists row, row ∈ processedData /\ Full_Name row = name.
Proof.
  unfold employees. cbn zeta.
  destruct (Set_of_spec (map Full_Name processedData)) as [Hnd Hin].
  split; [by rewrite sort_perm|]. split; [apply sort_default_sorted|].
  intros name. rewrite sort_elem_of, Hin, list_elem_of_In, in_map_iff.
  split; intros (row & H1 & H2); exists row.
  - by rewrite list_elem_of_In.
  - by rewrite <- list_elem_of_In.
Qed.

(** The client options are the distinct non-empty clients of the rows in
    ascending order; the two option groups split them into the clients of
    [INTERNAL_CLIENTS] and the others, each client in exactly one group. *)
Theorem clients_spec (processedData : list Entry) :
  NoDup (clients processedData) /\
  StronglySorted (fun x y => String.leb x y = true) (clients processedData) /\
  (forall c, c ∈ clients processedData <->
             c <> "" /\ exists row, row ∈ processedData /\ col "Client" row = Some c) /\
  internalClientOptions processedData ++ externalClientOptions processedData
    ≡ₚ clients processedData /\
  (forall c, c ∈ internalClientOptions processedData <->
             c ∈ clients processedData /\ c ∈ INTERNAL_CLIENTS) /\
  (forall c, c ∈ externalClientOptions processedData <->
             c ∈ clients processedData /\ c ∉ INTERNAL_CLIENTS).
Proof.
  destruct (optionList_spec "Client" processedData) as (Hnd & Hs & Hin).
  assert (forall c, includes INTERNAL_CLIENTS (Some c) = true <-> c ∈ INTERNAL_CLIENTS)
    as Hinc.
  { intros c. unfold includes. rewrite existsb_exists. split.
    - intros (x & Hx & ->%String.eqb_eq). by apply list_elem_of_In.
    - intros Hc. exists c. split; [by apply list_elem_of_In|apply String.eqb_refl]. }
  split; [done|]. split; [done|]. split; [done|]. split; [|split].
  - unfold internalClientOptions, externalClientOptions.
    induction (clients processedData) as [|c l IH]; [done|]. cbn [List.filter].
    destruct (includes INTERNAL_CLIENTS (Some c)); cbn [negb app].
    + by rewrite IH.
    + rewrite <- Permutation_middle. by rewrite IH.
  - intros c. unfold internalClientOptions.
    by rewrite list_elem_of_In, filter_In, <- list_elem_of_In, Hinc.
  - intros c. unfold externalClientOptions.
    rewrite list_elem_of_In, filter_In, <- list_elem_of_In, negb_true_iff.
    rewrite <- Hinc.
    destruct (includes INTERNAL_CLIENTS (Some c)); intuition congruence.
Qed.

(** No project is offered while no client is selected and no task while no
    project is; otherwise the project options are the non-empty projects of
    the rows of the selected client, and the task options the non-empty
    tasks of the rows whose project has the selected name, whatever their
    client. *)
Theorem projects_tasks_spec (processedData : list Entry) :
  projects "all" processedData = [] /\
  tasks "all" processedData = [] /\
  (forall selectedClient p,
     selectedClient <> "all" ->
     (p ∈ projects selectedClient processedData <->
      p <> "" /\ exists row, row ∈ processedData /\
                  col "Client" row = Some selectedClient /\
                  col "Project" row = Some p)) /\
  (forall selectedProject t,
     selectedProject <> "all" ->
     (t ∈ tasks selectedProject processedData <->
      t <> "" /\ exists row, row ∈ processedData /\
                  col "Project" row = Some selectedProject /\
                  col "Task" row = Some t)) /\
  (forall sel, NoDup (projects sel processedData) /\
               NoDup (tasks sel processedData) /\
     StronglySorted (fun x y => String.leb x y = true) (projects sel processedData) /\
     StronglySorted (fun x y => String.leb x y = true) (tasks sel processedData)).
Proof.
  assert (forall (c sel : string) (row : Entry),
            row ∈ List.filter (fun row => strict_eq (col c row) sel) processedData
            <-> row ∈ processedData /\ col c row = Some sel) as Hf.
  { intros c sel row. rewrite list_elem_of_In, filter_In, <- list_elem_of_In.
    unfold strict_eq. destruct (col c row) as [s|].
    - split; intros [H1 H2]; (split; [done|]).
      + by apply String.eqb_eq in H2 as ->.
      + injection H2 as ->. apply String.eqb_refl.
    - split; intros [H1 H2]; done. }
  split; [done|]. split; [done|]. split; [|split].
  - intros sel p Hsel%String.eqb_neq. unfold projects. rewrite Hsel.
    destruct (optionList_spec "Project"
      (List.filter (fun row => strict_eq (col "Client" row) sel) processedData))
      as (_ & _ & Hin).
    cbn zeta in *. rewrite Hin. split; intros [Hne (row & Hr & Hp)].
    + apply Hf in Hr as [Hr Hc]. eauto 6.
    + destruct Hp as [Hc Hp]. split; [done|]. exists row.
      split; [by apply Hf|done].
  - intros sel t Hsel%String.eqb_neq. unfold tasks. rewrite Hsel.
    destruct (optionList_spec "Task"
      (List.filter (fun row => strict_eq (col "Project" row) sel) processedData))
      as (_ & _ & Hin).
    cbn zeta in *. rewrite Hin. split; intros [Hne (row & Hr & Hp)].
    + apply Hf in Hr as [Hr Hc]. eauto 6.
    + destruct Hp as [Hc Hp]. split; [done|]. exists row.
      split; [by apply Hf|done].
  - intros sel. unfold projects, tasks.
    destruct (String.eqb sel "all"); [repeat split; constructor|].
    destruct (optionList_spec "Project"
      (List.filter (fun row => strict_eq (col "Client" row) sel) processedData))
      as (H1 & H2 & _).
    destruct (optionList_spec "Task"
      (List.filter (fun row => strict_eq (col "Project" row) sel) processedData))
      as (H3 & H4 & _).
    done.
Qed.

(** ** The filter pipeline as a whole *)

Lemma List_filter_sublist {A} (p : A -> bool) (l : list A) :
  List.filter p l `sublist_of` l.
Proof.
  induction l as [|x l IH]; [done|]. cbn [List.filter].
  destruct (p x); by constructor.
Qed.


Lemma keep_unless_all_sublist (selected : string) (p : Entry -> bool)
    (l : list Entry) :
  keep_unless_all selected p l `sublist_of` l.
Proof.
  unfold keep_unless_all. destruct (negb _); [apply List_filter_sublist|done].
Qed.



(** ** Totals: [stats] and the weekly records *)











Section WeeklyTotals.

Variable tza : Z.




Lemma Set_add_NoDup (x : string) (s : list string) :
  NoDup s -> NoDup (Set_add x s).
Proof.
  intros Hs. unfold Set_add. destruct (existsb _ s) eqn:E; [done|].
  apply NoDup_app. split; [done|]. split; [|apply NoDup_singleton].
  intros y Hy Hyx%list_elem_of_singleton. subst y.
  assert (existsb (String.eqb x) s = true); [|congruence].
  apply existsb_exists. exists x. split; [by apply list_elem_of_In|].
  apply String.eqb_refl.
Qed.



End WeeklyTotals.


(** ** Expanding the rows of the internal breakdown *)

(** [s.has(x)] and [s.delete(x)] on a Set of strings, kept as the list of
    its elements in insertion order. *)
Definition Set_has (x : string) (s : list string) : bool :=
  existsb (String.eqb x) s.

Definition Set_delete (x : string) (s : list string) : list string :=
  List.filter (fun y => negb (String.eqb x y)) s.

(** [toggleRow]:
<<
    const newExpanded = new Set(expandedRows);
    if (newExpanded.has(key)) {
      newExpanded.delete(key);
    } else {
      newExpanded.add(key);
    }
    setExpandedRows(newExpanded);
>>
    The function from the state [expandedRows] to the state that is
    set. *)
Definition toggleRow (key : string) (expandedRows : list string) : list string :=
  let newExpanded := expandedRows in
  if Set_has key newExpanded then Set_delete key newExpanded
  else Set_add key newExpanded.

Lemma Set_has_spec (x : string) (s : list string) :
  Set_has x s = true <-> x ∈ s.
Proof.
  unfold Set_has. rewrite existsb_exists. split.
  - intros (y & Hy & ->%String.eqb_eq). by apply list_elem_of_In.
  - intros Hx. exists x. split; [by apply list_elem_of_In|].
    apply String.eqb_refl.
Qed.

Lemma Set_delete_elem (x y : string) (s : list string) :
  y ∈ Set_delete x s <-> y <> x /\ y ∈ s.
Proof.
  unfold Set_delete. rewrite list_elem_of_In, filter_In, <- list_elem_of_In.
  destruct (String.eqb_spec x y) as [->|Hne]; cbn [negb];
    intuition congruence.
Qed.

Lemma toggleRow_elem (key k : string) (s : list string) :
  k ∈ toggleRow key s <-> (k = key /\ key ∉ s) \/ (k <> key /\ k ∈ s).
Proof.
  unfold toggleRow. cbn zeta. destruct (Set_has key s) eqn:E.
  - apply Set_has_spec in E. rewrite Set_delete_elem. tauto.
  - assert (key ∉ s) as Hn by (rewrite <- Set_has_spec; congruence).
    rewrite Set_add_elem. destruct (decide (k = key)) as [->|]; tauto.
Qed.

(** [toggleRow key] flips whether [key] is expanded and leaves every other
    key as it is; toggling the same key twice gives the set of expanded
    rows back; the set never holds a key twice. *)
Theorem toggleRow_spec (key : string) (expandedRows : list string) :
  (forall k,
     Set_has k (toggleRow key expandedRows)
     = if String.eqb k key then negb (Set_has key expandedRows)
       else Set_has k expandedRows) /\
  (forall k,
     Set_has k (toggleRow key (toggleRow key expandedRows))
     = Set_has k expandedRows) /\
  (NoDup expandedRows -> NoDup (toggleRow key expandedRows)).
Proof.
  split; [|split].
  - intros k. apply eq_true_iff_eq. rewrite Set_has_spec, toggleRow_elem.
    destruct (String.eqb_spec k key) as [->|Hne].
    + rewrite negb_true_iff, <- not_true_iff_false, Set_has_spec. tauto.
    + rewrite Set_has_spec. tauto.
  - intros k. apply eq_true_iff_eq. rewrite !Set_has_spec, !toggleRow_elem.
    destruct (decide (k = key)) as [->|Hne]; [|tauto].
    destruct (decide (key ∈ expandedRows)); tauto.
  - intros Hnd. unfold toggleRow. cbn zeta.
    destruct (Set_has key expandedRows).
    + unfold Set_delete. apply NoDup_ListNoDup, List.NoDup_filter.
      by apply NoDup_ListNoDup.
    + by apply Set_add_NoDup.
Qed.

(** ** Distances in days *)

Lemma differenceInDays_invalid_l (d : Date) : differenceInDays None d = NaN.
Proof. done. Qed.

(** [differenceInDays] does not depend on the order of its arguments and
    is never negative: it is NaN exactly when one of the dates is invalid,
    and a whole number of days from zero up otherwise. *)
Theorem differenceInDays_symmetric (date1 date2 : Date) :
  differenceInDays date1 date2 = differenceInDays date2 date1 /\
  (differenceInDays date1 date2 = NaN <-> date1 = None \/ date2 = None) /\
  (forall t1 t2,
     date1 = Some t1 -> date2 = Some t2 ->
     exists n, 0 <= n /\ differenceInDays date1 date2 = Num.of_Z n).
Proof.
  destruct date1 as [t1|], date2 as [t2|];
    rewrite ?differenceInDays_invalid, ?differenceInDays_invalid_l,
            ?differenceInDays_valid.
  - split; [|split].
    + by replace (Z.abs (t2 - t1)) with (Z.abs (t1 - t2)) by lia.
    + split; [done|]. by intros [?|?].
    + intros ? ? [= <-] [= <-]. eexists. split; [|done].
      unfold msPerDay. apply Z.div_pos; lia.
  - split; [done|]. split; [by split; [right|]|done].
  - split; [done|]. split; [by split; [left|]|done].
  - split; [done|]. split; [by split; [left|]|done].
Qed.

(** The date-range test [daysDiff <= daysBack && daysDiff >= 0] keeps an
    entry by the distance of its date from now alone: the second
    comparison never rejects, and an entry dated in the future, up to
    [daysBack] days and a half ahead, is kept like one of the past. *)
Theorem inDateRange_future (now daysBack : Z) (row : Entry) :
  inDateRange now daysBack row
  = Num.le (differenceInDays (Some now) (Date_ row)) (Num.of_Z daysBack) /\
  (forall ahead,
     Date_ row = Some (now + ahead) ->
     0 <= ahead -> 2 * ahead < (2 * daysBack + 1) * msPerDay ->
     inDateRange now daysBack row = true).
Proof.
  split.
  - unfold inDateRange. cbn zeta. destruct (Date_ row) as [t|].
    + rewrite differenceInDays_valid.
      assert (Num.ge (Num.of_Z ((2 * Z.abs (now - t) + msPerDay) / (2 * msPerDay)))
                     Num.zero = true) as ->; [|apply andb_true_r].
      apply ge_of_Z. unfold msPerDay. apply Z.div_pos; lia.
    + by rewrite differenceInDays_invalid.
  - intros ahead Hd H0 Hlt. apply inDateRange_spec.
    exists (now + ahead), ((2 * ahead + msPerDay) / (2 * msPerDay)).
    split; [done|].
    replace (Z.abs (now - (now + ahead))) with ahead by lia.
    split; [by apply nearest_day_spec|].
    unfold msPerDay in *. split; [apply Z.div_pos; lia|].
    apply Z.lt_succ_r, Z.div_lt_upper_bound; lia.
Qed.

(** ** The utilisation column of the weekly table *)

Inductive TextColor : Type :=
| text_green_600 | text_yellow_600 | text_red_600 | text_gray_400.

(** The class of the utilisation cell:
<<
    stats.hours > 0 ?
      (stats.billableHours / stats.hours > 0.8 ? 'text-green-600' :
       stats.billableHours / stats.hours > 0.6 ? 'text-yellow-600' : 'text-red-600')
      : 'text-gray-400'
>> *)
Definition utilizationClass (stats : Stats) : TextColor :=
  if Num.gt (hours stats) Num.zero then
    if Num.gt (Num.div (billableHours stats) (hours stats)) (Fin (Q2Qc (8 # 10)))
    then text_green_600
    else if Num.gt (Num.div (billableHours stats) (hours stats))
                   (Fin (Q2Qc (6 # 10)))
    then text_yellow_600 else text_red_600
  else text_gray_400.

Lemma lt_Fin_trans (a b : Qc) (x : Number) :
  Qc_ltb a b = true -> Num.lt (Fin b) x = true -> Num.lt (Fin a) x = true.
Proof.
  intros Hab. destruct x as [| | |c]; cbn [Num.lt]; try done.
  by apply Qc_ltb_trans.
Qed.

Lemma lt_ge_trans (a b : Qc) (x : Number) :
  Qc_ltb a b = true -> Num.ge x (Fin b) = true -> Num.lt (Fin a) x = true.
Proof.
  intros Hab. destruct x as [| | |c]; try done.
  rewrite ge_Fin, lt_Fin. apply Qc_ltb_lt in Hab. intros Hbc.
  by eapply Qclt_le_trans.
Qed.

(** A record that earns a shoutout is shown in green in the weekly table
    and raises no low-hours alert. *)
Theorem shoutout_is_green (stats : Stats) :
  qualifies stats = true ->
  utilizationClass stats = text_green_600 /\
  UtilizationAlert (hours stats) <> Some Low.
Proof.
  unfold qualifies. intros [Hr Hh]%andb_true_iff. split.
  - unfold utilizationClass.
    assert (Num.gt (hours stats) Num.zero = true) as ->.
    { apply (lt_ge_trans _ (Q2Qc (inject_Z 35))); [by vm_compute|done]. }
    assert (Num.gt (Num.div (billableHours stats) (hours stats))
                   (Fin (Q2Qc (8 # 10))) = true) as ->; [|done].
    apply (lt_Fin_trans _ (Q2Qc (9 # 10))); [by vm_compute|done].
  - unfold UtilizationAlert. cbn zeta.
    assert (Num.lt (hours stats) (Num.of_Z 30) = false) as ->.
    { destruct (Num.lt (hours stats) (Num.of_Z 30)) eqn:E; [|done].
      assert (Num.lt (Num.of_Z 30) (hours stats) = true) as E'.
      { apply (lt_ge_trans _ (Q2Qc (inject_Z 35))); [by vm_compute|done]. }
      destruct (hours stats) as [| | |h]; try done.
      apply lt_Fin in E, E'. exfalso.
      apply (Qclt_not_eq _ _ (Qclt_trans _ _ _ E E')). done. }
    cbn [negb andb]. by destruct (negb _).
Qed.

Lemma shoutout_is_green_witness :
  let stats := mkStats (Num.of_Z 40) (Num.of_Z 38) Num.zero (Num.of_Z 40) [] in
  qualifies stats = true /\
  utilizationClass stats = text_green_600 /\
  UtilizationAlert (hours stats) <> Some Low.
Proof.
  cbn zeta. split; [by vm_compute|].
  apply shoutout_is_green. by vm_compute.
Defined.

(** ** Hours per key: the charts and the word cloud

    The reducers below tally hours in a plain object.  The object is
    modelled by its own properties, listed in insertion order; the
    properties proved of the sorted lists do not depend on the order in
    which [Object.entries] lists the keys. *)

(** [x - y] *)
Definition Num_sub (x y : Number) : Number :=
  match x, y with
  | NaN, _ | _, NaN => NaN
  | PInf, PInf | NInf, NInf => NaN
  | PInf, _ | _, NInf => PInf
  | NInf, _ | _, PInf => NInf
  | Fin a, Fin b => Fin (a - b)%Qc
  end.










Module WordCloud.





End WordCloud.

Definition finite (x : Number) : bool :=
  match x with Fin _ => true | _ => false end.


Lemma finite_add (a b : Number) :
  finite a = true -> finite b = true -> finite (Num.add a b) = true.
Proof. by destruct a, b. Qed.

Lemma ge_trans (x y z : Number) :
  Num.ge x y = true -> Num.ge y z = true -> Num.ge x z = true.
Proof.
  destruct x as [| | |a], y as [| | |b], z as [| | |c]; try done.
  rewrite !ge_Fin. intros H1 H2. by eapply Qcle_trans.
Qed.

Lemma Map_elem_get {V} (k : string) (v : V) (m : list (string * V)) :
  NoDup m.*1 -> (k, v) ∈ m -> Map_get k m = Some v.
Proof.
  induction m as [|[k' v'] m IH]; [by intros _ ?%elem_of_nil|].
  rewrite fmap_cons. intros [Hk Hnd]%NoDup_cons. cbn [Map_get fst] in *.
  intros [[= -> ->]|Hin]%elem_of_cons.
  - by rewrite String.eqb_refl.
  - destruct (String.eqb_spec k k') as [->|Hne]; [|by apply IH].
    destruct Hk. apply list_elem_of_fmap. by exists (k', v).
Qed.

Lemma Map_set_keys_elem {V} (k k' : string) (v : V) (m : list (string * V)) :
  k' ∈ (Map_set k v m).*1 <-> k' = k \/ k' ∈ m.*1.
Proof.
  rewrite Map_set_keys. destruct (Map_has k m) eqn:E.
  - apply Map_has_get, Map_get_keys in E. split; [by right|].
    by intros [->|?].
  - rewrite elem_of_app, list_elem_of_singleton. tauto.
Qed.


Section TallyFacts.

Context (key : Entry -> string).









End TallyFacts.











(** Entries of two employees for two clients, with and without a task. *)
Definition chartRows : list RawRow :=
  [ {[ "Date" := "2024-01-15"; "Client" := "ClientX"; "Task" := "Development";
       "Hours" := "130"; "First Name" := "Ann"; "Last Name" := "Lee" ]};
    {[ "Date" := "2024-01-16"; "Client" := "Onica"; "Task" := "Meetings";
       "Hours" := "2.5"; "First Name" := "Bo"; "Last Name" := "Diaz" ]};
    {[ "Date" := "2024-01-17"; "Client" := "Onica"; "Task" := "";
       "Hours" := "4"; "First Name" := "Ann"; "Last Name" := "Lee" ]};
    {[ "Date" := "2024-01-18"; "Client" := "ClientX"; "Task" := "Development";
       "Hours" := "20"; "First Name" := "Bo"; "Last Name" := "Diaz" ]} ].





(** ** Dates shown from their text *)

(** The fields of a Date that are shown depend on its local day only. *)
Lemma formatDate_same_day (tza t1 t2 : Z) (format : string) :
  Day (LocalTime tza t1) = Day (LocalTime tza t2) ->
  formatDate tza (Some t1) format = formatDate tza (Some t2) format.
Proof.
  intros H. destruct (calendar_of_Day _ _ H) as (Hy & Hm & Hd).
  unfold formatDate, toDateString, getFullYear, getMonth, getDate, getDay.
  cbn [fmap option_fmap option_map]. unfold compose, WeekDay.
  by rewrite Hy, Hm, Hd, H.
Qed.

(** UTC midnight of a day, read in local time, falls in that day east of
    Greenwich and in the day before west of it. *)
Lemma Day_of_midnight (tza day : Z) :
  (0 <= tza < msPerDay -> Day (LocalTime tza (day * msPerDay)) = day) /\
  (- msPerDay <= tza < 0 -> Day (LocalTime tza (day * msPerDay)) = day - 1).
Proof.
  unfold Day, LocalTime, msPerDay.
  split; intros H; Z.div_mod_to_equations; lia.
Qed.

Lemma startOfWeek_Some (tza : Z) (date : Date) (ws : Z) :
  startOfWeek tza date = Some ws ->
  exists t, date = Some t /\
            ws = t - daysBackToMonday (WeekDay (LocalTime tza t)) * msPerDay.
Proof.
  destruct date as [t|]; [|done]. rewrite startOfWeek_time.
  unfold TimeClip. case_match; [|done]. intros [= <-]. eauto.
Qed.

(** The week column of the weekly table shows
    [formatDate(new Date(weekStart), 'MMM d, yyyy')], where [weekStart] is
    the key of the week.  The key is read back as UTC midnight: with a
    local time at or east of Greenwich the Date shown is the Monday the
    week starts with; west of Greenwich it is the Sunday before it. *)
Theorem week_label (fallback : string -> Date) (tza : Z) (row : Entry) (ws : Z) :
  startOfWeek tza (Date_ row) = Some ws ->
  1000 <= YearFromTime (LocalTime tza ws) <= 9999 ->
  let shown := new_Date fallback (Some (weekKeyOf tza row)) in
  (0 <= tza < msPerDay ->
   getDay tza shown = Some 1 /\
   forall format, formatDate tza shown format = formatDate tza (Some ws) format) /\
  (- msPerDay <= tza < 0 ->
   getDay tza shown = Some 0 /\
   forall format,
     formatDate tza shown format = formatDate tza (Some (ws - msPerDay)) format).
Proof.
  intros Hws Hy. cbn zeta. unfold weekKeyOf, new_Date. rewrite Hws.
  rewrite Date_parse_formatDate by done.
  apply startOfWeek_Some in Hws as (t & _ & Hws).
  assert (WeekDay (LocalTime tza ws) = 1) as Hmon.
  { subst ws. unfold LocalTime.
    replace (t - daysBackToMonday (WeekDay (t + tza)) * msPerDay + tza)
      with (t + tza - daysBackToMonday (WeekDay (t + tza)) * msPerDay) by lia.
    apply WeekDay_back. }
  set (day := Day (LocalTime tza ws)) in *.
  destruct (Day_of_midnight tza day) as [Heast Hwest].
  split; intros Htza.
  - specialize (Heast Htza). split.
    + unfold getDay. cbn [fmap option_fmap option_map]. unfold compose.
      f_equal. unfold WeekDay in *. by rewrite Heast.
    + intros format. by apply formatDate_same_day.
  - specialize (Hwest Htza). split.
    + unfold getDay. cbn [fmap option_fmap option_map]. unfold compose.
      f_equal. unfold WeekDay in *. rewrite Hwest. fold day in Hmon.
      Z.div_mod_to_equations; lia.
    + intros format. apply formatDate_same_day. rewrite Hwest.
      unfold LocalTime.
      replace (ws - msPerDay + tza) with (ws + tza + (-1) * msPerDay) by lia.
      rewrite Day_shift. subst day. unfold LocalTime. lia.
Qed.

Lemma week_label_witness :
  let tza := -5 * 3600000 in
  let row := processRow iso_only {[ "Date" := "2024-01-17" ]} in
  startOfWeek tza (Date_ row) = Some 1705363200000 /\
  weekKeyOf tza row = "2024-01-15" /\
  formatDate tza (new_Date iso_only (Some (weekKeyOf tza row))) "MMM d, yyyy"
  = "Jan 14, 2024".
Proof.
  cbn zeta. split; [by vm_compute|]. split; [by vm_compute|].
  pose proof (week_label iso_only (-5 * 3600000)
                (processRow iso_only {[ "Date" := "2024-01-17" ]})
                1705363200000) as H.
  cbn zeta in H. destruct H as [_ H]; [by vm_compute|by vm_compute|].
  destruct H as [_ H]; [by vm_compute|]. rewrite H. by vm_compute.
Defined.

(** ** The monthly hours trend *)

Module Trend.

Record MonthData : Type := mkMonthData {
  month : string;
  internal : Number;
  external : Number;
  total : Number
}.

Section Trend.

Variable fallback : string -> Date.
Variable tza : Z.

(** [formatDate(row['Date'], 'MMM yyyy')] *)
Definition monthOf (row : Entry) : string := formatDate tza (Date_ row) "MMM yyyy".

(** The statements that update [acc[month]] for one row. *)
Definition addRow (row : Entry) (data : MonthData) : MonthData :=
  {| month := month data;
     total := Num.add (total data) (Hours row);
     internal :=
       if Is_Internal row then Num.add (internal data) (Hours row)
       else internal data;
     external :=
       if Is_Internal row then external data
       else Num.add (external data) (Hours row) |}.

(** The reducer:
<<
    const month = formatDate(row['Date'], 'MMM yyyy');
    if (!acc[month]) {
      acc[month] = { month, internal: 0, external: 0, total: 0 };
    }
    acc[month].total += row['Hours'];
    if (row['Is Internal']) {
      acc[month].internal += row['Hours'];
    } else {
      acc[month].external += row['Hours'];
    }
    return acc;
>> *)
Definition step (acc : list (string * MonthData)) (row : Entry) :
    list (string * MonthData) :=
  let month := monthOf row in
  let new := mkMonthData month Num.zero Num.zero Num.zero in
  let acc := if negb (Map_has month acc) then Map_set month new acc else acc in
  let data := default new (Map_get month acc) in
  Map_set month (addRow row data) acc.

(** [(a, b) => new Date(a.month) - new Date(b.month)] *)
Definition byMonth (a b : MonthData) : Number :=
  date_sub (Date_parse fallback (month a)) (Date_parse fallback (month b)).

(** The data of the line chart:
<<
    Object.entries(filteredData.reduce(..., {}))
      .map(([, data]) => data)
      .sort((a, b) => new Date(a.month) - new Date(b.month))
>> *)
Definition monthlyTrend (filteredData : list Entry) : list MonthData :=
  sort byMonth (map snd (fold_left step filteredData [])).

End Trend.

End Trend.

Section TrendFacts.

Variable tza : Z.


(** The label of a bucket is [toDateString] of the date: ['MMM yyyy'] is
    none of the formats [formatDate] knows. *)
Lemma Trend_monthOf_eq (row : Entry) :
  Trend.monthOf tza row = toDateString tza (Date_ row).
Proof. done. Qed.





End TrendFacts.


(** *** Labels of the trend are days *)

(** The position of a string in a list. *)
Fixpoint index_of (s : string) (l : list string) : option Z :=
  match l with
  | [] => None
  | x :: l => if String.eqb s x then Some 0 else Z.succ <$> index_of s l
  end.

(** Reading the month, the day of the month and the year back from the
    text [toDateString] produces. *)
Definition dateStringFields (s : string) : option (Z * Z * Z) :=
  match s with
  | String _ (String _ (String _ (String " "
      (String m1 (String m2 (String m3 (String " "
        (String d1 (String d2 (String " "
          (String y1 (String y2 (String y3 (String y4 EmptyString)))))))))))))) =>
      y ← four_digits y1 y2 y3 y4;
      m ← index_of (String m1 (String m2 (String m3 EmptyString))) months;
      d ← two_digits d1 d2;
      Some (y, m, d)
  | _ => None
  end.

Lemma padYear_four (y : Z) :
  1000 <= y <= 9999 -> padYear y = String_of_Z y.
Proof.
  intros Hy. destruct (year_text y Hy) as (a & b & c & d & E & _).
  unfold padYear. rewrite Z.abs_eq by lia. cbn zeta. rewrite E.
  by destruct (Z.ltb_spec y 0); [lia|].
Qed.

Lemma dateStringFields_toDateString (tza t : Z) :
  1000 <= YearFromTime (LocalTime tza t) <= 9999 ->
  dateStringFields (toDateString tza (Some t))
  = Some (YearFromTime (LocalTime tza t), MonthFromTime (LocalTime tza t),
          DateFromTime (LocalTime tza t)).
Proof.
  intros Hy. set (lt := LocalTime tza t) in *.
  pose proof (MonthFromTime_range lt) as Hm.
  pose proof (DateFromTime_range lt) as Hd.
  pose proof (DaysInMonth_le_31 (YearFromTime lt) (MonthFromTime lt + 1)) as H31.
  pose proof (WeekDay_range lt) as Hw.
  destruct (year_text _ Hy) as (y1 & y2 & y3 & y4 & Ey & E4).
  destruct (two_text (DateFromTime lt)) as (d1 & d2 & Ed & E2); [lia|].
  unfold toDateString, getDay, getMonth, getDate, getFullYear.
  cbn [fmap option_fmap option_map String_of_int from_option].
  unfold compose. fold lt. rewrite padYear_four, Ey, Ed by done.
  assert (exists w1 w2 w3,
            String_of_undefinable (index weekdays (Some (WeekDay lt)))
            = String w1 (String w2 (String w3 EmptyString)))
    as (w1 & w2 & w3 & ->).
  { assert (WeekDay lt = 0 \/ WeekDay lt = 1 \/ WeekDay lt = 2 \/ WeekDay lt = 3
            \/ WeekDay lt = 4 \/ WeekDay lt = 5 \/ WeekDay lt = 6) as H by lia.
    repeat destruct H as [->|H]; try rewrite H; cbn; eauto. }
  assert (exists m1 m2 m3,
            String_of_undefinable (index months (Some (MonthFromTime lt)))
            = String m1 (String m2 (String m3 EmptyString)) /\
            index_of (String m1 (String m2 (String m3 EmptyString))) months
            = Some (MonthFromTime lt))
    as (m1 & m2 & m3 & -> & Em).
  { assert (MonthFromTime lt = 0 \/ MonthFromTime lt = 1 \/ MonthFromTime lt = 2
            \/ MonthFromTime lt = 3 \/ MonthFromTime lt = 4
            \/ MonthFromTime lt = 5 \/ MonthFromTime lt = 6
            \/ MonthFromTime lt = 7 \/ MonthFromTime lt = 8
            \/ MonthFromTime lt = 9 \/ MonthFromTime lt = 10
            \/ MonthFromTime lt = 11) as H by lia.
    repeat destruct H as [->|H]; try rewrite H; cbn; eauto. }
  change (dateStringFields
            (String w1 (String w2 (String w3 (String " "
              (String m1 (String m2 (String m3 (String " "
                (String d1 (String d2 (String " "
                  (String y1 (String y2 (String y3 (String y4 EmptyString)))))))))))))))
          = Some (YearFromTime lt, MonthFromTime lt, DateFromTime lt)).
  unfold dateStringFields. by rewrite E4, Em, E2.
Qed.

(** Two entries with valid dates (in years of four digits) fall into the
    same point of the "monthly" trend exactly when their dates are the same
    local day: the chart has a point per day, not per month. *)
Theorem monthlyTrend_per_day (tza : Z) (row1 row2 : Entry) (t1 t2 : Z) :
  Date_ row1 = Some t1 -> Date_ row2 = Some t2 ->
  1000 <= YearFromTime (LocalTime tza t1) <= 9999 ->
  1000 <= YearFromTime (LocalTime tza t2) <= 9999 ->
  (Trend.monthOf tza row1 = Trend.monthOf tza row2 <->
   Day (LocalTime tza t1) = Day (LocalTime tza t2)).
Proof.
  intros H1 H2 Hy1 Hy2. rewrite !Trend_monthOf_eq, H1, H2. split.
  - intros Heq.
    pose proof (dateStringFields_toDateString tza t1 Hy1) as E1.
    pose proof (dateStringFields_toDateString tza t2 Hy2) as E2.
    rewrite Heq, E2 in E1. injection E1 as Ey Em Ed.
    pose proof (MakeDay_from_time (LocalTime tza t1)
                  (DateFromTime (LocalTime tza t1))) as D1.
    pose proof (MakeDay_from_time (LocalTime tza t2)
                  (DateFromTime (LocalTime tza t2))) as D2.
    rewrite Ey, Em, Ed, D1 in D2. lia.
  - intros Hday.
    apply (formatDate_same_day tza t1 t2 "MMM yyyy" Hday).
Qed.

Lemma monthlyTrend_per_day_witness :
  let row1 := processRow iso_only {[ "Date" := "2024-01-15"; "Hours" := "8" ]} in
  let row2 := processRow iso_only {[ "Date" := "2024-01-16"; "Hours" := "4" ]} in
  Date_ row1 = Some 1705276800000 /\ Date_ row2 = Some 1705363200000 /\
  map Trend.month (Trend.monthlyTrend iso_only 0 [row1; row2])
  = ["Mon Jan 15 2024"; "Tue Jan 16 2024"] /\
  (Trend.monthOf 0 row1 = Trend.monthOf 0 row2 <->
   Day (LocalTime 0 1705276800000) = Day (LocalTime 0 1705363200000)).
Proof.
  cbn zeta. split; [by vm_compute|]. split; [by vm_compute|].
  split; [by vm_compute|].
  apply monthlyTrend_per_day; by vm_compute.
Defined.

(** ** The day an entry is attributed to *)

Lemma formatDate_local_day (tza1 tza2 t1 t2 : Z) (format : string) :
  Day (LocalTime tza1 t1) = Day (LocalTime tza2 t2) ->
  formatDate tza1 (Some t1) format = formatDate tza2 (Some t2) format.
Proof.
  intros H. destruct (calendar_of_Day _ _ H) as (Hy & Hm & Hd).
  unfold formatDate, toDateString, getFullYear, getMonth, getDate, getDay.
  cbn [fmap option_fmap option_map]. unfold compose, WeekDay.
  by rewrite Hy, Hm, Hd, H.
Qed.

(** The text [yyyy-MM-dd] of a day, counted from 1 January 1970. *)
Definition isoText (day : Z) : string :=
  formatDate 0 (Some (day * msPerDay)) "yyyy-MM-dd".

Lemma Day_midnight (day : Z) : Day (LocalTime 0 (day * msPerDay)) = day.
Proof. unfold Day, LocalTime, msPerDay. rewrite Z.add_0_r. by apply Z.div_mul. Qed.

(** A CSV row dated [yyyy-MM-dd] becomes UTC midnight of that day, and the
    component reads the Date in local time.  At or east of Greenwich the
    entry is shown on, and counted for, the day of its text; west of
    Greenwich it is shown on the day before, so that an entry dated on a
    Monday is counted in the week that starts seven days before it. *)
Theorem csv_date_local_day (fallback : string -> Date) (tza day : Z)
    (csvRow : RawRow) :
  1000 <= YearFromDay day <= 9999 ->
  csvRow !! "Date" = Some (isoText day) ->
  let row := processRow fallback csvRow in
  Date_ row = Some (day * msPerDay) /\
  (0 <= tza < msPerDay ->
   forall format, formatDate tza (Date_ row) format
                  = formatDate 0 (Some (day * msPerDay)) format) /\
  (- msPerDay <= tza < 0 ->
   (forall format, formatDate tza (Date_ row) format
                   = formatDate 0 (Some ((day - 1) * msPerDay)) format) /\
   (WeekDay (day * msPerDay) = 1 ->
    1000 <= YearFromDay (day - 7) ->
    weekKeyOf tza row = isoText (day - 7))).
Proof.
  intros Hy Htext. cbn zeta.
  assert (Date_ (processRow fallback csvRow) = Some (day * msPerDay)) as Hdate.
  { unfold processRow, new_Date. cbn [Date_]. rewrite Htext. unfold isoText.
    rewrite Date_parse_formatDate.
    - by rewrite Day_midnight.
    - unfold YearFromTime. by rewrite Day_midnight. }
  rewrite Hdate. split; [done|].
  destruct (Day_of_midnight tza day) as [Heast Hwest].
  split; intros Htza.
  - intros format. apply formatDate_local_day.
    by rewrite Heast, Day_midnight.
  - specialize (Hwest Htza). split.
    + intros format. apply formatDate_local_day.
      by rewrite Hwest, Day_midnight.
    + intros Hmon Hy7. unfold weekKeyOf, isoText. rewrite Hdate.
      rewrite startOfWeek_time.
      assert (WeekDay (LocalTime tza (day * msPerDay)) = 0) as Hsun.
      { unfold WeekDay in *. rewrite Hwest.
        replace (Day (day * msPerDay)) with day in Hmon.
        - Z.div_mod_to_equations; lia.
        - unfold Day, msPerDay. by rewrite Z.div_mul. }
      rewrite Hsun. change (daysBackToMonday 0) with 6.
      assert (-354285 <= day < 2932897) as Hrange.
      { pose proof (Day_of_year_range (day * msPerDay)) as H.
        unfold YearFromTime in H.
        replace (Day (day * msPerDay)) with day in H
          by (unfold Day, msPerDay; by rewrite Z.div_mul).
        by apply H. }
      unfold TimeClip.
      assert ((Z.abs (day * msPerDay - 6 * msPerDay) <=? 8640000000000000) = true)
        as -> by (apply Z.leb_le; unfold msPerDay; lia).
      apply formatDate_local_day. rewrite Day_midnight.
      unfold LocalTime.
      replace (day * msPerDay - 6 * msPerDay + tza)
        with (day * msPerDay + tza + (-6) * msPerDay) by lia.
      rewrite Day_shift. unfold LocalTime in Hwest. lia.
Qed.

Lemma csv_date_local_day_witness :
  let tza := -5 * 3600000 in
  let csvRow : RawRow := {[ "Date" := "2024-01-15"; "Hours" := "8" ]} in
  let row := processRow iso_only csvRow in
  isoText 19737 = "2024-01-15" /\
  formatDate tza (Date_ row) "MMM d, yyyy" = "Jan 14, 2024" /\
  weekKeyOf tza row = "2024-01-08".
Proof.
  cbn zeta. split; [by vm_compute|].
  pose proof (csv_date_local_day iso_only (-5 * 3600000) 19737
                {[ "Date" := "2024-01-15"; "Hours" := "8" ]}) as H.
  cbn zeta in H. destruct H as (_ & _ & H); [by vm_compute|by vm_compute|].
  destruct H as [Hshown Hweek]; [by vm_compute|]. split.
  - rewrite Hshown. by vm_compute.
  - rewrite Hweek; by vm_compute.
Defined.

(** ** The rows of the internal tab *)



Lemma List_filter_none {A} (p : A -> bool) (l : list A) :
  (forall x, x ∈ l -> p x = false) -> List.filter p l = [].
Proof.
  induction l as [|x l IH]; intros H; [done|]. cbn [List.filter].
  rewrite (H x) by left. apply IH. intros y Hy. apply H. by right.
Qed.

Lemma List_filter_filter {A} (p q : A -> bool) (l : list A) :
  List.filter q (List.filter p l) = List.filter (fun x => p x && q x) l.
Proof.
  induction l as [|x l IH]; [done|]. cbn [List.filter].
  destruct (p x); cbn [andb List.filter]; [|done]. by rewrite IH.
Qed.


Section BreakdownRows.

Import Breakdown.

(** The billable hours of a list of rows. *)
Definition billableOf (rows : list Entry) : Number :=
  sumBy (fun row => if isBillable row then Hours row else Num.zero) rows.




End BreakdownRows.


(** ** The keys of the expandable rows *)

(** The keys under which the rows of the internal tab are expanded:
    [`client-${client}`], [`project-${client}-${project}`] and
    [`task-${client}-${project}-${task}`]. *)
Definition clientRowKey (client : string) : string := "client-" ++ client.

Definition projectRowKey (client project : string) : string :=
  "project-" ++ client ++ "-" ++ project.

Definition taskRowKey (client project task : string) : string :=
  "task-" ++ client ++ "-" ++ project ++ "-" ++ task.

Lemma Set_has_toggleRow_other (key k : string) (expandedRows : list string) :
  k <> key ->
  Set_has k (toggleRow key expandedRows) = Set_has k expandedRows.
Proof.
  intros Hne. apply eq_true_iff_eq.
  rewrite !Set_has_spec, toggleRow_elem. tauto.
Qed.

(** For the clients of [INTERNAL_CLIENTS], the only ones with rows in the
    internal tab, the keys of client rows and of project rows tell the rows
    apart, and no key of one level is a key of another: toggling a project
    row leaves every other client and project row as it is.  Task rows do
    not have this property: a hyphen in a project or task name lets two
    task rows share a key, and then they expand and collapse together. *)
Theorem row_keys (client client' project project' task' : string) :
  client ∈ INTERNAL_CLIENTS -> client' ∈ INTERNAL_CLIENTS ->
  (clientRowKey client = clientRowKey client' -> client = client') /\
  (projectRowKey client project = projectRowKey client' project' ->
   client = client' /\ project = project') /\
  clientRowKey client <> projectRowKey client' project' /\
  clientRowKey client <> taskRowKey client' project' task' /\
  projectRowKey client project <> taskRowKey client' project' task' /\
  (forall expandedRows,
     (client, project) <> (client', project') ->
     Set_has (projectRowKey client' project')
             (toggleRow (projectRowKey client project) expandedRows)
     = Set_has (projectRowKey client' project') expandedRows /\
     Set_has (clientRowKey client')
             (toggleRow (projectRowKey client project) expandedRows)
     = Set_has (clientRowKey client') expandedRows) /\
  taskRowKey client "A-B" "C" = taskRowKey client "A" "B-C" /\
  Set_has (taskRowKey client "A" "B-C")
          (toggleRow (taskRowKey client "A-B" "C") []) = true.
Proof.
  intros Hc Hc'.
  assert (projectRowKey client project = projectRowKey client' project' ->
          client = client' /\ project = project') as Hinj.
  { unfold INTERNAL_CLIENTS in *.
    repeat (apply elem_of_cons in Hc as [->|Hc]);
      [| |by apply elem_of_nil in Hc];
      (repeat (apply elem_of_cons in Hc' as [->|Hc']);
       [| |by apply elem_of_nil in Hc']);
      cbn; intros H; by simplify_eq. }
  split; [|split; [done|]].
  { unfold clientRowKey. cbn. intros H. by simplify_eq. }
  split; [done|]. split; [done|]. split; [done|]. split.
  - intros expandedRows Hne. split.
    + apply Set_has_toggleRow_other. intros Heq. symmetry in Heq.
      apply Hinj in Heq as [-> ->]. done.
    + by apply Set_has_toggleRow_other.
  - unfold INTERNAL_CLIENTS in Hc.
    repeat (apply elem_of_cons in Hc as [->|Hc]);
      [| |by apply elem_of_nil in Hc]; by vm_compute.
Qed.

Lemma row_keys_witness :
  "Onica" ∈ INTERNAL_CLIENTS /\
  "Rackspace Innovation In Action" ∈ INTERNAL_CLIENTS /\
  (projectRowKey "Onica" "Training" = projectRowKey "Onica" "Admin" ->
   "Onica" = "Onica" /\ "Training" = "Admin") /\
  taskRowKey "Onica" "A-B" "C" = taskRowKey "Onica" "A" "B-C".
Proof.
  assert ("Onica" ∈ INTERNAL_CLIENTS) as H1 by (by left).
  assert ("Rackspace Innovation In Action" ∈ INTERNAL_CLIENTS) as H2
    by (right; by left).
  split; [exact H1|]. split; [exact H2|].
  pose proof (row_keys "Onica" "Onica" "Training" "Admin" "" H1 H1)
    as (_ & Hp & _ & _ & _ & _ & Ht & _).
  split; [exact Hp|exact Ht].
Defined.

(** ** The top projects *)

Module TopProjects.

Record ProjectData : Type := mkProjectData {
  hours : Number;
  billable : Number;
  isInternal : bool
}.

(** [`${row['Client']} - ${row['Project']}`] *)
Definition keyOf (row : Entry) : string :=
  String_of_undefinable (col "Client" row) ++ " - " ++
  String_of_undefinable (col "Project" row).

(** The statements that update [acc[key]] for one row. *)
Definition addRow (row : Entry) (data : ProjectData) : ProjectData :=
  {| hours := Num.add (hours data) (Hours row);
     billable :=
       if isBillable row then Num.add (billable data) (Hours row)
       else billable data;
     isInternal := isInternal data |}.

(** The reducer:
<<
    const key = `${row['Client']} - ${row['Project']}`;
    if (!acc[key]) {
      acc[key] = { hours: 0, billable: 0, isInternal: row['Is Internal'] };
    }
    acc[key].hours += row['Hours'];
    if (row['Billable?'] === 'Yes') {
      acc[key].billable += row['Hours'];
    }
    return acc;
>> *)
Definition step (acc : list (string * ProjectData)) (row : Entry) :
    list (string * ProjectData) :=
  let key := keyOf row in
  let new := mkProjectData Num.zero Num.zero (Is_Internal row) in
  let acc := if negb (Map_has key acc) then Map_set key new acc else acc in
  let data := default new (Map_get key acc) in
  Map_set key (addRow row data) acc.

(** [([,a], [,b]) => b.hours - a.hours] *)
Definition byHoursDesc (x y : string * ProjectData) : Number :=
  Num_sub (hours y.2) (hours x.2).

(** The cards of "Top Projects by Hours":
    [Object.entries(filteredData.reduce(..., {})).sort(...).slice(0, 9)]. *)
Definition topProjects (filteredData : list Entry) :
    list (string * ProjectData) :=
  take 9 (sort byHoursDesc (fold_left step filteredData [])).

End TopProjects.

Section TopProjectsFacts.

Import TopProjects.

Lemma TopProjects_step_eq (acc : list (string * ProjectData)) (row : Entry) :
  step acc row
  = Map_set (keyOf row)
      (addRow row (default (mkProjectData Num.zero Num.zero (Is_Internal row))
                           (Map_get (keyOf row) acc)))
      acc.
Proof.
  unfold step. cbn zeta.
  apply (Map_ensure_update (keyOf row) _ (addRow row)).
Qed.

(** The rows with a given key, in the order of the array. *)
Definition rowsOf (k : string) (rows : list Entry) : list Entry :=
  List.filter (fun row => String.eqb (keyOf row) k) rows.

Definition cardOK (rows : list Entry) (k : string) (data : ProjectData) : Prop :=
  hours data = sumBy Hours (rowsOf k rows) /\
  billable data = billableOf (rowsOf k rows) /\
  exists first, head (rowsOf k rows) = Some first /\
                isInternal data = Is_Internal first.

Definition cardsOK (rows : list Entry) (acc : list (string * ProjectData)) : Prop :=
  NoDup acc.*1 /\
  (forall k, k ∈ acc.*1 <-> exists row, row ∈ rows /\ keyOf row = k) /\
  (forall k data, Map_get k acc = Some data -> cardOK rows k data).

Lemma rowsOf_snoc (k : string) (rows : list Entry) (row : Entry) :
  rowsOf k (rows ++ [row])
  = rowsOf k rows ++ (if String.eqb (keyOf row) k then [row] else []).
Proof. unfold rowsOf. by rewrite List.filter_app. Qed.

Lemma cardsOK_step (rows : list Entry) (acc : list (string * ProjectData))
    (row : Entry) :
  cardsOK rows acc -> cardsOK (rows ++ [row]) (step acc row).
Proof.
  intros (Hnd & Hkeys & Hval). rewrite TopProjects_step_eq. split; [|split].
  - by apply Map_set_NoDup.
  - intros k. rewrite Map_set_keys_elem, Hkeys. split.
    + intros [->|(r & Hr & Hk)].
      * exists row. split; [|done]. apply elem_of_app. right. left.
      * exists r. split; [|done]. apply elem_of_app. by left.
    + intros (r & [Hr|Hr%list_elem_of_singleton]%elem_of_app & Hk).
      * right. eauto.
      * left. by subst.
  - intros k data. unfold cardOK. rewrite rowsOf_snoc.
    destruct (String.eqb_spec (keyOf row) k) as [<-|Hne].
    + rewrite Map_get_set_eq. intros [= <-].
      unfold billableOf. rewrite !sumBy_app, !sumBy_cons, !sumBy_nil, !add_zero_r.
      cbn [hours billable isInternal addRow].
      destruct (Map_get (keyOf row) acc) as [old|] eqn:G;
        cbn [default from_option id].
      * destruct (Hval _ _ G) as (Hh & Hb & first & Hfirst & Hi).
        rewrite Hh, Hb. split; [done|]. split.
        { unfold billableOf. destruct (isBillable row); [done|].
          by rewrite add_zero_r. }
        exists first. split; [|done].
        destruct (rowsOf (keyOf row) rows); [done|]. done.
      * assert (rowsOf (keyOf row) rows = []) as ->.
        { apply List_filter_none. intros r Hr. apply String.eqb_neq.
          intros Hk.
          assert (keyOf row ∈ acc.*1) as [? ?]%Map_get_keys
            by (apply Hkeys; eauto).
          congruence. }
        cbn [hours billable isInternal app head].
        rewrite sumBy_nil, !add_zero_l. split; [done|]. split.
        { by destruct (isBillable row). }
        by exists row.
    + rewrite Map_get_set_ne by done. rewrite app_nil_r. apply Hval.
Qed.

Lemma cardsOK_fold (rows done : list Entry) (acc : list (string * ProjectData)) :
  cardsOK done acc -> cardsOK (done ++ rows) (fold_left step rows acc).
Proof.
  revert done acc. induction rows as [|row rows IH]; intros done acc Hok.
  - by rewrite app_nil_r.
  - cbn [fold_left]. rewrite cons_middle, app_assoc. apply IH.
    by apply cardsOK_step.
Qed.

Lemma sort_byHoursDesc (l : list (string * ProjectData)) :
  Forall (fun kv => finite (hours kv.2) = true) l ->
  StronglySorted (fun x y => Num.ge (hours x.2) (hours y.2) = true)
                 (sort byHoursDesc l).
Proof.
  apply (sort_sorted_rel byHoursDesc
           (fun x y => Num.ge (hours x.2) (hours y.2) = true)
           (fun kv => finite (hours kv.2) = true)).
  - intros x y z. apply ge_trans.
  - intros [k1 [[| | |a] b1 i1]] [k2 [[| | |b] b2 i2]]; try done. intros _ _.
    unfold byHoursDesc, Num.gt. cbn [snd hours Num_sub].
    change Num.zero with (Fin (Q2Qc 0)).
    rewrite lt_Fin, ge_Fin. intros H. apply Qclt_le_weak.
    by apply (proj2 (Qclt_minus_iff a b)).
  - intros [k1 [[| | |a] b1 i1]] [k2 [[| | |b] b2 i2]]; try done. intros _ _.
    unfold byHoursDesc, Num.gt. cbn [snd hours Num_sub].
    change Num.zero with (Fin (Q2Qc 0)).
    rewrite <- not_true_iff_false, lt_Fin, ge_Fin. intros H.
    apply Qcnot_lt_le. intros Hlt. apply H.
    by apply (proj1 (Qclt_minus_iff a b)).
Qed.

Lemma sumBy_finite {A} (f : A -> Number) (l : list A) :
  Forall (fun x => finite (f x) = true) l -> finite (sumBy f l) = true.
Proof.
  induction 1 as [|x l Hx _ IH]; [done|]. rewrite sumBy_cons.
  by apply finite_add.
Qed.

End TopProjectsFacts.

(** "Top Projects by Hours" shows at most nine cards, one per key
    [client - project]; a card carries the sum of the hours and of the
    billable hours of the entries with its key, whatever the hours are, and
    the ['Is Internal'] flag of the first of these entries.  When every
    entry has a finite number of hours the cards are in descending order of
    hours, and a key that is left out has no more hours than any card
    shown. *)
Theorem topProjects_spec (filteredData : list Entry) :
  let cards := TopProjects.topProjects filteredData in
  (length cards <= 9)%nat /\
  NoDup cards.*1 /\
  (forall key data,
     (key, data) ∈ cards ->
     TopProjects.hours data = sumBy Hours (rowsOf key filteredData) /\
     TopProjects.billable data = billableOf (rowsOf key filteredData) /\
     exists first, head (rowsOf key filteredData) = Some first /\
                   TopProjects.isInternal data = Is_Internal first) /\
  (Forall (fun row => finite (Hours row) = true) filteredData ->
   StronglySorted
     (fun x y => Num.ge (TopProjects.hours x.2) (TopProjects.hours y.2) = true)
     cards /\
   forall row key data,
     row ∈ filteredData -> (key, data) ∈ cards ->
     TopProjects.keyOf row ∈ cards.*1 \/
     Num.ge (TopProjects.hours data)
            (sumBy Hours (rowsOf (TopProjects.keyOf row) filteredData)) = true).
Proof.
  cbn zeta. unfold TopProjects.topProjects.
  destruct (cardsOK_fold filteredData [] []) as (Hnd & Hkeys & Hval).
  { split; [constructor|]. split; [|done].
    intros k. split; [by intros ?%elem_of_nil|].
    by intros (? & ?%elem_of_nil & _). }
  rewrite app_nil_l in Hkeys, Hval.
  set (t := fold_left TopProjects.step filteredData []) in *.
  set (s := sort TopProjects.byHoursDesc t).
  assert (s ≡ₚ t) as Hperm by apply sort_perm.
  assert (forall k data, (k, data) ∈ s -> cardOK filteredData k data) as Hs.
  { intros k data Hin. rewrite Hperm in Hin. by apply Hval, Map_elem_get. }
  assert (NoDup s.*1) as Hnds by (by rewrite Hperm).
  assert (forall kv, kv ∈ take 9 s -> kv ∈ s) as Hsub.
  { intros kv Hin. rewrite <- (take_drop 9 s). apply elem_of_app. by left. }
  split; [apply firstn_le_length|]. split; [|split].
  - rewrite <- (take_drop 9 s), fmap_app in Hnds.
    by apply NoDup_app in Hnds as (? & _ & _).
  - intros key data Hin%Hsub. by apply Hs.
  - intros Hfin.
    assert (StronglySorted
              (fun x y => Num.ge (TopProjects.hours x.2) (TopProjects.hours y.2)
                          = true) s) as Hsorted.
    { apply sort_byHoursDesc. apply Forall_forall. intros [k data] Hin.
      apply Map_elem_get in Hin; [|done]. cbn [snd].
      destruct (Hval _ _ Hin) as [-> _]. apply sumBy_finite. apply Forall_forall.
      intros r [Hr _]%list_elem_of_In%filter_In.
      rewrite Forall_forall in Hfin. by apply Hfin, list_elem_of_In. }
    rewrite <- (take_drop 9 s) in Hsorted. split.
    + by apply StronglySorted_app_1_l in Hsorted.
    + intros row key data Hrow Hin.
      assert (TopProjects.keyOf row ∈ s.*1)
        as ([k' d'] & Hk & Hin')%list_elem_of_fmap.
      { rewrite Hperm. apply Hkeys. eauto. }
      cbn [fst] in Hk. subst k'.
      destruct (Hs _ _ Hin') as [Hh' _].
      rewrite <- (take_drop 9 s) in Hin'.
      apply elem_of_app in Hin' as [Hin'|Hin'].
      * left. apply list_elem_of_fmap. by exists (TopProjects.keyOf row, d').
      * right. rewrite <- Hh'.
        apply (StronglySorted_app_1_elem_of _ _ _ _ _ Hsorted Hin Hin').
Qed.

(** ** The date range of the summary *)

(** [arr[i]['Date']] for an index within the array. *)
Definition Date_at (arr : list Entry) (i : nat) : Date :=
  e ← arr !! i; Date_ e.

(** The "Date Range" line of the summary:
<<
    filteredData.length > 0
      ? `${formatDate(filteredData[filteredData.length - 1]['Date'], 'MMM d')} - ${formatDate(filteredData[0]['Date'], 'MMM d, yyyy')}`
      : 'No data'
>> *)
Definition dateRangeText (tza : Z) (filteredData : list Entry) : string :=
  if (0 <? length filteredData)%nat then
    (formatDate tza (Date_at filteredData (length filteredData - 1)) "MMM d"
     ++ " - " ++ formatDate tza (Date_at filteredData 0) "MMM d, yyyy")%string
  else "No data".

Lemma passing_sublist (now : Z) (c : FilterCriteria) (rows : list Entry) :
  passing now c rows `sublist_of` rows.
Proof.
  unfold passing. cbn zeta.
  assert (keep_unless_all (selectedTask c)
            (fun row => strict_eq (col "Task" row) (selectedTask c))
            (keep_unless_all (selectedProject c)
               (fun row => strict_eq (col "Project" row) (selectedProject c))
               (keep_unless_all (selectedClient c)
                  (fun row => strict_eq (col "Client" row) (selectedClient c))
                  (keep_unless_all (selectedEmployee c)
                     (fun row => String.eqb (Full_Name row) (selectedEmployee c))
                     rows))) `sublist_of` rows) as H4.
  { repeat (etrans; [apply keep_unless_all_sublist|]). done. }
  destruct (presetDays c); [|done].
  etrans; [apply List_filter_sublist|done].
Qed.

Lemma filteredRows_descending (now : Z) (c : FilterCriteria) (rows : list Entry) :
  Forall (fun e => is_Some (Date_ e)) rows ->
  StronglySorted (fun a b => default 0 (Date_ b) <= default 0 (Date_ a))
    (filteredRows now c rows).
Proof.
  intros Hvalid. rewrite filteredRows_eq.
  apply (sort_sorted byDateDesc (fun e => default 0 (Date_ e))
           (fun e => is_Some (Date_ e))).
  - intros a b [ta Ha] [tb Hb]. unfold byDateDesc, Num.gt, Num.zero.
    rewrite Ha, Hb. cbn [date_sub default from_option id].
    rewrite lt_of_Z. lia.
  - apply Forall_forall. intros e He. rewrite Forall_forall in Hvalid.
    apply Hvalid. eapply elem_of_sublist; [exact He|apply passing_sublist].
Qed.

(** When every date is valid, the line shows the dates of the oldest and
    of the newest entry of the filtered set: no entry is older than the
    first date shown or newer than the second; without entries it reads
    "No data". *)
Theorem dateRange_spans (tza now : Z) (c : FilterCriteria) (rows : list Entry) :
  Forall (fun e => is_Some (Date_ e)) rows ->
  let filteredData := filteredRows now c rows in
  (filteredData = [] /\ dateRangeText tza filteredData = "No data") \/
  (exists oldest newest,
     dateRangeText tza filteredData
     = (formatDate tza (Some oldest) "MMM d" ++ " - " ++
        formatDate tza (Some newest) "MMM d, yyyy")%string /\
     (exists e, e ∈ filteredData /\ Date_ e = Some oldest) /\
     (exists e, e ∈ filteredData /\ Date_ e = Some newest) /\
     forall e t, e ∈ filteredData -> Date_ e = Some t -> oldest <= t <= newest).
Proof.
  intros Hvalid. cbn zeta.
  pose proof (filteredRows_descending now c rows Hvalid) as Hsorted.
  assert (Forall (fun e => is_Some (Date_ e)) (filteredRows now c rows)) as Hv.
  { rewrite filteredRows_eq, sort_perm.
    apply Forall_forall. intros e He. rewrite Forall_forall in Hvalid.
    apply Hvalid. eapply elem_of_sublist; [exact He|apply passing_sublist]. }
  set (l := filteredRows now c rows) in *.
  destruct (decide (l = [])) as [->|Hne]; [by left|]. right.
  assert (0 < length l)%nat as Hlen.
  { destruct l; [done|]. cbn. lia. }
  destruct (lookup_lt_is_Some_2 l 0 Hlen) as [first Hfirst].
  destruct (lookup_lt_is_Some_2 l (length l - 1)) as [final Hfinal]; [lia|].
  rewrite Forall_forall in Hv.
  destruct (Hv first) as [newest Hnewest];
    [by eapply list_elem_of_lookup_2|].
  destruct (Hv final) as [oldest Holdest];
    [by eapply list_elem_of_lookup_2|].
  exists oldest, newest. split; [|split; [|split]].
  - unfold dateRangeText, Date_at.
    rewrite (proj2 (Nat.ltb_lt _ _) Hlen), Hfirst, Hfinal. cbn.
    by rewrite Hnewest, Holdest.
  - exists final. split; [by eapply list_elem_of_lookup_2|done].
  - exists first. split; [by eapply list_elem_of_lookup_2|done].
  - intros e t [i Hi]%list_elem_of_lookup He.
    pose proof (lookup_lt_Some _ _ _ Hi) as Hil. split.
    + destruct (decide (i = length l - 1)%nat) as [->|Hn].
      * rewrite Hfinal in Hi. injection Hi as ->.
        rewrite He in Holdest. injection Holdest as ->. lia.
      * pose proof (StronglySorted_lookup _ l i (length l - 1) e final
                      Hsorted ltac:(lia) Hi Hfinal) as H.
        cbn beta in H. rewrite He, Holdest in H. done.
    + destruct (decide (i = 0)%nat) as [->|Hn].
      * rewrite Hfirst in Hi. injection Hi as ->.
        rewrite He in Hnewest. injection Hnewest as ->. lia.
      * pose proof (StronglySorted_lookup _ l 0 i first e
                      Hsorted ltac:(lia) Hfirst Hi) as H.
        cbn beta in H. rewrite He, Hnewest in H. done.
Qed.

Lemma dateRange_spans_witness :
  let rows := processedData iso_only (handleFileUpload chartRows) in
  Forall (fun e => is_Some (Date_ e)) rows /\
  dateRangeText 0 (filteredRows 0 initialCriteria rows) = "Jan 15 - Jan 18, 2024" /\
  ((filteredRows 0 initialCriteria rows = [] /\
    dateRangeText 0 (filteredRows 0 initialCriteria rows) = "No data") \/
   (exists oldest newest,
      dateRangeText 0 (filteredRows 0 initialCriteria rows)
      = (formatDate 0 (Some oldest) "MMM d" ++ " - " ++
         formatDate 0 (Some newest) "MMM d, yyyy")%string /\
      (exists e, e ∈ filteredRows 0 initialCriteria rows /\ Date_ e = Some oldest) /\
      (exists e, e ∈ filteredRows 0 initialCriteria rows /\ Date_ e = Some newest) /\
      forall e t, e ∈ filteredRows 0 initialCriteria rows ->
                  Date_ e = Some t -> oldest <= t <= newest)).
Proof.
  cbn zeta.
  assert (Forall (fun e => is_Some (Date_ e))
            (processedData iso_only (handleFileUpload chartRows))) as H.
  { repeat constructor; eexists; reflexivity. }
  split; [exact H|]. split; [by vm_compute|].
  apply (dateRange_spans 0 0 initialCriteria _ H).
Defined.
